(** * node-build-talk: the express server of [index.js] and its Dockerfile

    [index.js] is eight lines: it creates an express application,
    registers one route, starts listening on port 3000 and prints a line.
    What the process then does is decided by the libraries those eight
    lines call: express (routing, [res.send], the default not-found
    response) and node ([net.Server.listen], [process.nextTick], uncaught
    exceptions).  This file embeds the program over a model of exactly the
    library entry points it reaches (express 4: [lib/application.js],
    [lib/router], [lib/response.js], [lib/request.js], with the packages
    fresh and finalhandler; node: [lib/net.js], [lib/_http_server.js]),
    and states the properties
    of the specification about it.  The Dockerfile that ships with
    [index.js] is embedded as the list of its instructions. *)

From Stdlib Require Import String Ascii List ZArith Bool Lia DecimalString.
Import ListNotations.
Open Scope string_scope.
Open Scope Z_scope.

(** ** Strings as the libraries use them *)

Module Str.

(** [String.prototype.toLowerCase] on the ASCII range. *)
Definition lower_ascii (c : ascii) : ascii :=
  let n := nat_of_ascii c in
  if ((65 <=? n) && (n <=? 90))%nat then ascii_of_nat (n + 32) else c.

Fixpoint toLowerCase (s : string) : string :=
  match s with
  | EmptyString => EmptyString
  | String c rest => String (lower_ascii c) (toLowerCase rest)
  end.

(** [String.prototype.toUpperCase] on the ASCII range. *)
Definition upper_ascii (c : ascii) : ascii :=
  let n := nat_of_ascii c in
  if ((97 <=? n) && (n <=? 122))%nat then ascii_of_nat (n - 32) else c.

Fixpoint toUpperCase (s : string) : string :=
  match s with
  | EmptyString => EmptyString
  | String c rest => String (upper_ascii c) (toUpperCase rest)
  end.

(** [s] without its last character when that character is a slash. *)
Fixpoint strip_slash (s : string) : string :=
  match s with
  | EmptyString => EmptyString
  | String c EmptyString => if Ascii.eqb c "/" then EmptyString else s
  | String c rest => String c (strip_slash rest)
  end.

(** A word character of a regular expression: a letter, a digit or the
    underscore. *)
Definition word_char (c : ascii) : bool :=
  let n := nat_of_ascii c in
  (((48 <=? n) && (n <=? 57)) || ((65 <=? n) && (n <=? 90))
   || ((97 <=? n) && (n <=? 122)) || (n =? 95))%nat.

(** [s] starts with [lit], whatever the case of its letters ([lit] is in
    lower case), and then ends or goes on with a character that is not a
    word character. *)
Fixpoint literal_here (lit s : string) : bool :=
  match lit, s with
  | EmptyString, EmptyString => true
  | EmptyString, String c _ => negb (word_char c)
  | String l lit', String c s' => Ascii.eqb l (lower_ascii c) && literal_here lit' s'
  | String _ _, EmptyString => false
  end.

(** [lit] occurs in [s] as [literal_here] has it, at the start of [s]
    (when [boundary] holds) or just after a character that is not a word
    character. *)
Fixpoint literal_within (lit : string) (boundary : bool) (s : string) : bool :=
  (boundary && literal_here lit s) ||
  match s with
  | EmptyString => false
  | String c rest => literal_within lit (negb (word_char c)) rest
  end.

(** JavaScript truthiness of a possibly absent string: [undefined] and
    the empty string are falsy. *)
Definition truthy (o : option string) : bool :=
  match o with
  | Some (String _ _) => true
  | _ => false
  end.

(** Decimal rendering of a length, as [String(n)] gives it. *)
Definition decimal (n : nat) : string := NilEmpty.string_of_uint (Nat.to_uint n).

End Str.

(** ** HTTP messages, as node parses and answers them *)

Module Http.

(** Header fields in order of insertion. *)
Definition Headers := list (string * string).

(** Field names are compared without regard to case
    ([res.getHeader], [res.setHeader], [res.removeHeader]). *)
Definition same_field (a b : string) : bool :=
  String.eqb (Str.toLowerCase a) (Str.toLowerCase b).

Fixpoint getHeader (name : string) (h : Headers) : option string :=
  match h with
  | [] => None
  | (n, v) :: rest => if same_field n name then Some v else getHeader name rest
  end.

Fixpoint setHeader (name value : string) (h : Headers) : Headers :=
  match h with
  | [] => [(name, value)]
  | (n, v) :: rest =>
      if same_field n name then (name, value) :: rest
      else (n, v) :: setHeader name value rest
  end.

Definition removeHeader (name : string) (h : Headers) : Headers :=
  filter (fun f => negb (same_field (fst f) name)) h.

(** [http.IncomingMessage]: a request that node's parser has accepted.
    - [httpVersion] is [req.httpVersion], 1.0 or 1.1;
    - [method] is [req.method], one of node's [http.METHODS], in upper
      case;
    - [pathname] and [query] are the path and the query string of the
      request target [req.url] as express reads it ([parseurl(req)]):
      the path is without the query string and the fragment and, for a
      target in absolute form, without scheme and host, so the targets
      [/], [/?x=1], [/#top] and [http://localhost:3000/] all have the
      path [/].  The parser only accepts a target that starts with a
      slash, a star or a scheme, and the path of such a target is never
      the empty string;
    - [headers] is [req.headers], keyed by lower-cased names;
    - [body] is what the request carries after its head. *)
Record IncomingMessage := mkRequest {
  httpVersion : string;
  method : string;
  pathname : string;
  query : string;
  headers : Headers;
  body : string;
  pathname_nonempty : pathname <> ""
}.

(** What node's http server does with a parsed request before any
    listener sees it ([lib/_http_server.js]). *)
Inductive Incoming :=
| Request                 (* 'request' is emitted: the listener answers *)
| Refused (code : Z)      (* node writes this status itself and ends the response *)
| Destroyed.              (* node destroys the socket: the client gets no reply *)

(** [continueExpression], [/(?:^|\W)100-continue(?:$|\W)/i]. *)
Definition continueExpression (expect : string) : bool :=
  Str.literal_within "100-continue" true expect.

(** [parserOnIncoming] and [onParserExecuteCommon] on a server that has
    only a 'request' listener, with node's default options.  A CONNECT
    request needs a 'connect' listener: without one the socket is
    destroyed.  An HTTP/1.1 request must name a host
    ([res.writeHead(400, ['Connection', 'close'])] otherwise), and its
    Expect field, if any, must ask for 100-continue
    ([res.writeHead(417)] otherwise; when it does, an interim 100
    Continue goes out before the listener is called).  Requests of
    another version are not checked. *)
Definition parserOnIncoming (req : IncomingMessage) : Incoming :=
  if String.eqb (method req) "CONNECT" then Destroyed
  else if String.eqb (httpVersion req) "1.1" then
    match getHeader "host" (headers req) with
    | None => Refused 400
    | Some _ =>
        match getHeader "expect" (headers req) with
        | None => Request
        | Some expect => if continueExpression expect then Request else Refused 417
        end
    end
  else Request.

(** What goes back on the wire as the final response: status line, the
    header fields the framework sets, and the body.  The fields node's
    transport adds on its own (Date, Connection, Keep-Alive, and the
    Content-Length or Transfer-Encoding of a response node ends itself)
    are left out, and so is an interim 100 Continue. *)
Record Reply := mkReply {
  status : Z;
  fields : Headers;
  content : string
}.

(** [http.ServerResponse] while the listener runs.  [res_req] is the
    request it answers ([res.req]); [ended] becomes the body once
    [res.end] has been called. *)
Record ServerResponse := mkResponse {
  res_req : IncomingMessage;
  statusCode : Z;
  res_headers : Headers;
  ended : option string
}.

(** A fresh response object: node's default status code is 200. *)
Definition createResponse (req : IncomingMessage) : ServerResponse :=
  {| res_req := req; statusCode := 200; res_headers := []; ended := None |}.

Definition get (name : string) (res : ServerResponse) : option string :=
  getHeader name (res_headers res).

Definition set (name value : string) (res : ServerResponse) : ServerResponse :=
  {| res_req := res_req res; statusCode := statusCode res;
     res_headers := setHeader name value (res_headers res); ended := ended res |}.

Definition remove (name : string) (res : ServerResponse) : ServerResponse :=
  {| res_req := res_req res; statusCode := statusCode res;
     res_headers := removeHeader name (res_headers res); ended := ended res |}.

Definition with_status (code : Z) (res : ServerResponse) : ServerResponse :=
  {| res_req := res_req res; statusCode := code;
     res_headers := res_headers res; ended := ended res |}.

(** [res.end(chunk)]: the first call fixes the body; the response is
    then complete.  A later call does not change what was sent. *)
Definition end_ (chunk : string) (res : ServerResponse) : ServerResponse :=
  match ended res with
  | Some _ => res
  | None =>
      {| res_req := res_req res; statusCode := statusCode res;
         res_headers := res_headers res; ended := Some chunk |}
  end.

(** The reply a client sees, once the response has been ended; a
    response that is never ended leaves the client waiting. *)
Definition reply_of (res : ServerResponse) : option Reply :=
  match ended res with
  | Some b => Some {| status := statusCode res; fields := res_headers res; content := b |}
  | None => None
  end.

End Http.

(** ** The node process *)

Module Node.

(** What an observer of the process sees, in order. *)
Inductive Event :=
| Listen (port : Z)                    (* net.Server.listen was called *)
| Bound (port : Z)                     (* a listening socket was bound *)
| BindFailed (port : Z) (code : string)(* the system refused the socket *)
| Stdout (line : string)               (* a line written to standard output *)
| Delivered (event code : string)      (* an event handed to a registered listener *)
| Uncaught (code : string)             (* the runtime reports an uncaught error on standard error *)
| Exit (code : Z).

(** Callbacks queued with [process.nextTick] by [net.Server]. *)
Inductive Tick :=
| emitListeningNT
| emitErrorNT (code : string).

Record Process := mkProcess {
  env : list (string * string);      (* process.env *)
  argv : list string;                (* process.argv *)
  system : Z -> option string;       (* the system's answer to bind and listen on a port:
                                        None when granted, else the errno name *)
  trace : list Event;
  sockets : list Z;                  (* ports of the listening sockets held *)
  tickQueue : list Tick;
  errorListeners : nat;              (* listeners for 'error' on the server *)
  uncaughtListeners : nat;           (* listeners for 'uncaughtException' on process *)
  exitCode : option Z
}.

(** The process as node starts it, before the main module runs. *)
Definition boot (sys : Z -> option string) (e : list (string * string)) (a : list string) : Process :=
  {| env := e; argv := a; system := sys; trace := []; sockets := [];
     tickQueue := []; errorListeners := 0; uncaughtListeners := 0; exitCode := None |}.

(** JavaScript statements: they run against the process and return a value. *)
Definition JS (A : Type) : Type := Process -> A * Process.

Definition ret {A} (a : A) : JS A := fun p => (a, p).

Definition bind {A B} (m : JS A) (k : A -> JS B) : JS B :=
  fun p => let (a, p') := m p in k a p'.

Definition emit (e : Event) : JS unit :=
  fun p => (tt, {| env := env p; argv := argv p; system := system p;
                   trace := trace p ++ [e]; sockets := sockets p;
                   tickQueue := tickQueue p; errorListeners := errorListeners p;
                   uncaughtListeners := uncaughtListeners p; exitCode := exitCode p |}).

Definition nextTick (t : Tick) : JS unit :=
  fun p => (tt, {| env := env p; argv := argv p; system := system p;
                   trace := trace p; sockets := sockets p;
                   tickQueue := tickQueue p ++ [t]; errorListeners := errorListeners p;
                   uncaughtListeners := uncaughtListeners p; exitCode := exitCode p |}).

Definition hold_socket (port : Z) : JS unit :=
  fun p => (tt, {| env := env p; argv := argv p; system := system p;
                   trace := trace p; sockets := sockets p ++ [port];
                   tickQueue := tickQueue p; errorListeners := errorListeners p;
                   uncaughtListeners := uncaughtListeners p; exitCode := exitCode p |}).

Definition exit (code : Z) : JS unit :=
  fun p => (tt, {| env := env p; argv := argv p; system := system p;
                   trace := trace p ++ [Exit code]; sockets := [];
                   tickQueue := []; errorListeners := errorListeners p;
                   uncaughtListeners := uncaughtListeners p; exitCode := Some code |}).

Definition take_ticks : JS (list Tick) :=
  fun p => (tickQueue p,
            {| env := env p; argv := argv p; system := system p;
               trace := trace p; sockets := sockets p;
               tickQueue := []; errorListeners := errorListeners p;
               uncaughtListeners := uncaughtListeners p; exitCode := exitCode p |}).

Definition ask {A} (f : Process -> A) : JS A := fun p => (f p, p).

End Node.

Declare Scope js_scope.
Delimit Scope js_scope with js.
Notation "x <- m ;; k" := (Node.bind m (fun x => k))
  (at level 61, m at next level, right associativity) : js_scope.
Notation "m ;; k" := (Node.bind m (fun _ => k))
  (at level 61, right associativity) : js_scope.

Local Open Scope js_scope.

Module console.

(** [console.log(line)]: one line on standard output. *)
Definition log (line : string) : Node.JS unit := Node.emit (Node.Stdout line).

End console.

Module net.

Import Node.

(** [net.Server.prototype.listen(port)] in the primary process and with
    no host given ([lib/net.js], [setupListenHandle]).  The socket is
    created, bound and put in listening state before [listen] returns; a
    refusal does not throw: the error is emitted later
    ([process.nextTick(emitErrorNT, this, error)]), like 'listening'
    ([process.nextTick(emitListeningNT, this)]). *)
Definition listen (port : Z) : JS unit :=
  emit (Listen port) ;;
  held <- ask sockets ;;
  sys <- ask system ;;
  if existsb (Z.eqb port) held then
    emit (BindFailed port "EADDRINUSE") ;; nextTick (emitErrorNT "EADDRINUSE")
  else
    match sys port with
    | None => hold_socket port ;; emit (Bound port) ;; nextTick emitListeningNT
    | Some code => emit (BindFailed port code) ;; nextTick (emitErrorNT code)
    end.

(** An error nobody catches: node prints it on standard error and the
    process ends with code 1, unless 'uncaughtException' has a listener. *)
Definition uncaughtException (code : string) : JS unit :=
  n <- ask uncaughtListeners ;;
  match n with
  | O => emit (Uncaught code) ;; exit 1
  | S _ => emit (Delivered "uncaughtException" code)
  end.

(** [EventEmitter.prototype.emit('error', err)]: with no listener for
    'error' the error is thrown. *)
Definition run_tick (t : Tick) : JS unit :=
  match t with
  | emitListeningNT => ret tt
  | emitErrorNT code =>
      n <- ask errorListeners ;;
      match n with
      | O => uncaughtException code
      | S _ => emit (Delivered "error" code)
      end
  end.

Fixpoint run_ticks (ts : list Tick) : JS unit :=
  match ts with
  | [] => ret tt
  | t :: rest =>
      code <- ask exitCode ;;
      match code with
      | Some _ => ret tt
      | None => run_tick t ;; run_ticks rest
      end
  end.

(** The tick queue is processed once the running script has returned. *)
Definition drain : JS unit := ts <- take_ticks ;; run_ticks ts.

End net.

(** ** express *)

Module Express.

Import Http Node.

(** Helpers of the packages express depends on, taken as they are: what
    they compute is not decided by this repository.
    - [etag]: the weak entity tag of a body (package etag);
    - [setCharset]: a content type with its charset replaced;
    - [no_cache]: whether a Cache-Control value contains the no-cache
      directive, [parseTokenList]: the members of a comma-separated
      list, [date_le]: whether one HTTP date is no later than another
      (package fresh);
    - [encodeUrl], [createHtmlDocument]: the resource name and the HTML
      page of the default not-found response (package finalhandler). *)
Class Packages := {
  etag : string -> string;
  setCharset : string -> string -> string;
  no_cache : string -> bool;
  parseTokenList : string -> list string;
  date_le : string -> string -> bool;
  encodeUrl : string -> string;
  createHtmlDocument : string -> string
}.

(** A route callback: [(req, res) => { ... }].  It may touch the process
    and it hands back the response object as it left it. *)
Definition Handler : Type := IncomingMessage -> ServerResponse -> JS ServerResponse.

(** One [app.METHOD(path, callback)] registration: a route with a single
    method and a single callback. *)
Record Route := mkRoute {
  route_path : string;
  route_method : string;        (* lower case, as express keeps it *)
  route_handle : Handler
}.

(** The application: its router is created with the first route. *)
Record Application := mkApp {
  router : option (list Route)
}.

(** [express()] *)
Definition express : Application := {| router := None |}.

(** [app.get(path, callback)] *)
Definition get (path : string) (callback : Handler) (app : Application) : Application :=
  let stack := match router app with Some s => s | None => [] end in
  {| router := Some (stack ++ [ {| route_path := path; route_method := "get";
                                   route_handle := callback |} ])%list |}.

Section WithPackages.

Context `{Packages}.

(** Package fresh, [fresh(reqHeaders, resHeaders)]: is the client's
    cached copy still good?  Not without a validator, not under
    Cache-Control no-cache; an If-None-Match other than the star must
    name the entity tag, and an If-Modified-Since must not be older than
    Last-Modified. *)
Definition fresh (reqHeaders : Headers) (resEtag resLastModified : option string) : bool :=
  let modifiedSince := getHeader "if-modified-since" reqHeaders in
  let noneMatch := getHeader "if-none-match" reqHeaders in
  if negb (Str.truthy modifiedSince) && negb (Str.truthy noneMatch) then false
  else if match getHeader "cache-control" reqHeaders with
          | Some cc => Str.truthy (Some cc) && no_cache cc
          | None => false
          end then false
  else if match noneMatch with
          | Some nm =>
              Str.truthy noneMatch && negb (String.eqb nm "*") &&
              match resEtag with
              | Some e =>
                  negb (Str.truthy resEtag) ||
                  negb (existsb (fun m => String.eqb m e || String.eqb m ("W/" ++ e)
                                          || String.eqb ("W/" ++ m) e)
                                (parseTokenList nm))
              | None => true
              end
          | None => false
          end then false
  else if match modifiedSince with
          | Some ims =>
              Str.truthy modifiedSince &&
              match resLastModified with
              | Some lm => negb (Str.truthy resLastModified) || negb (date_le lm ims)
              | None => true
              end
          | None => false
          end then false
  else true.

(** [req.fresh] ([lib/request.js]): only GET and HEAD, only for a 2xx or
    304 response; the validators of the request are compared with the
    ETag and Last-Modified fields of the response. *)
Definition req_fresh (res : ServerResponse) : bool :=
  let m := method (res_req res) in
  if negb (String.eqb m "GET" || String.eqb m "HEAD") then false
  else
    let s := statusCode res in
    if ((200 <=? s) && (s <? 300)) || (s =? 304)
    then fresh (headers (res_req res)) (Http.get "ETag" res) (Http.get "Last-Modified" res)
    else false.

(** [res.send(body)] with a string body, first part
    ([lib/response.js]): the content type defaults to html
    ([if (!this.get('Content-Type')) this.type('html')]), with the
    charset of the string; Content-Length and, unless one is set already,
    a weak ETag are filled in ([this.set('ETag', etag)]). *)
Definition send_headers (chunk : string) (res : ServerResponse) : ServerResponse :=
  let res :=
    match Http.get "Content-Type" res with
    | None => Http.set "Content-Type" "text/html; charset=utf-8" res
    | Some type => Http.set "Content-Type" (setCharset type "utf-8") res
    end in
  let generateETag := match Http.get "ETag" res with None => true | Some _ => false end in
  let res := Http.set "Content-Length" (Str.decimal (String.length chunk)) res in
  if generateETag then Http.set "ETag" (etag chunk) res else res.

(** [res.send(body)], last part: a 204 or 304 response loses its entity
    headers and its body ([chunk = '']); a HEAD request gets no body
    ([if (req.method === 'HEAD') this.end(); else this.end(chunk, encoding)]). *)
Definition send_body (chunk : string) (res : ServerResponse) : ServerResponse :=
  let stripped := (statusCode res =? 204) || (statusCode res =? 304) in
  let res :=
    if stripped
    then Http.remove "Transfer-Encoding"
           (Http.remove "Content-Length" (Http.remove "Content-Type" res))
    else res in
  let chunk := if stripped then "" else chunk in
  if String.eqb (method (res_req res)) "HEAD" then end_ "" res else end_ chunk res.

(** [res.send(body)]: between the two parts, a request that is
    conditional and fresh turns the status into 304
    ([if (req.fresh) this.statusCode = 304]). *)
Definition send (chunk : string) (res : ServerResponse) : ServerResponse :=
  let res := send_headers chunk res in
  let res := if req_fresh res then with_status 304 res else res in
  send_body chunk res.

(** The final handler when no route took the request: 404 and an HTML
    page naming the method and the resource. *)
Definition finalhandler (req : IncomingMessage) (res : ServerResponse) : ServerResponse :=
  match ended res with
  | Some _ => res
  | None =>
      let page := createHtmlDocument ("Cannot " ++ method req ++ " " ++ encodeUrl (pathname req)) in
      let res := with_status 404 res in
      let res := Http.remove "Content-Range"
                   (Http.remove "Content-Language" (Http.remove "Content-Encoding" res)) in
      let res := Http.set "Content-Security-Policy" "default-src 'none'" res in
      let res := Http.set "X-Content-Type-Options" "nosniff" res in
      let res := Http.set "Content-Type" "text/html; charset=utf-8" res in
      let res := Http.set "Content-Length" (Str.decimal (String.length page)) res in
      if String.eqb (method req) "HEAD" then end_ "" res else end_ page res
  end.

(** [Layer.prototype.match] for a literal path, compiled with the
    router's defaults (not case sensitive, not strict, anchored at the
    end): the path itself, with or without one trailing slash. *)
Definition layer_match (path pathname : string) : bool :=
  let base := Str.toLowerCase (Str.strip_slash path) in
  let p := Str.toLowerCase pathname in
  String.eqb p base || String.eqb p (base ++ "/").

(** [Route.prototype._handles_method]: HEAD falls back on GET
    ([if (name === 'head' && !this.methods['head']) name = 'get']). *)
Definition handles_method (r : Route) (m : string) : bool :=
  let name := Str.toLowerCase m in
  let name := if String.eqb name "head" && negb (String.eqb (route_method r) "head")
              then "get" else name in
  String.eqb name (route_method r).

(** [Route.prototype._options]: the methods a route answers, in upper case. *)
Definition route_options (r : Route) : list string :=
  if String.eqb (route_method r) "get" then ["GET"; "HEAD"]
  else [Str.toUpperCase (route_method r)].

(** [appendMethods]: the methods not yet in the list are added to it. *)
Definition appendMethods (options addition : list string) : list string :=
  fold_left (fun l m => if existsb (String.eqb m) l then l else (l ++ [m])%list)
            addition options.

(** The automatic answer to OPTIONS: the methods found on the way. *)
Definition sendOptionsResponse (options : list string) (res : ServerResponse) : ServerResponse :=
  let allow := String.concat "," options in
  send allow (Http.set "Allow" allow res).

(** [Router.prototype.handle]: the first route whose path and method
    match gets the request; its callback does not pass it on.  When
    the stack is exhausted an OPTIONS request is answered with the
    methods collected, anything else goes to the final handler. *)
Fixpoint next (stack : list Route) (options : list string)
         (req : IncomingMessage) (res : ServerResponse) : JS ServerResponse :=
  match stack with
  | [] =>
      match options with
      | [] => ret (finalhandler req res)
      | _ :: _ => ret (sendOptionsResponse options res)
      end
  | r :: rest =>
      if layer_match (route_path r) (pathname req) then
        if handles_method r (method req) then route_handle r req res
        else if String.eqb (method req) "OPTIONS"
             then next rest (appendMethods options (route_options r)) req res
             else next rest options req res
      else next rest options req res
  end.

(** The [expressInit] middleware, first on every router. *)
Definition expressInit (res : ServerResponse) : ServerResponse :=
  Http.set "X-Powered-By" "Express" res.

(** [app.handle(req, res)]: the request listener of the server. *)
Definition handle (app : Application) (req : IncomingMessage) : JS ServerResponse :=
  let res := createResponse req in
  match router app with
  | None => ret (finalhandler req res)
  | Some stack => next stack [] req (expressInit res)
  end.

End WithPackages.

(** [http.Server]: the application it hands requests to, and its port. *)
Record Server := mkServer {
  requestListener : Application;
  address : Z
}.

(** [app.listen(port)]: an http server with the application as its
    request listener, told to listen. *)
Definition listen (app : Application) (port : Z) : JS Server :=
  net.listen port ;; ret {| requestListener := app; address := port |}.

End Express.

(** ** index.js *)

Module Index.

Import Http Node Express.

Section Program.

Context `{Packages}.

(** [(req, res) => { res.send('Good Afternoon!'); }] *)
Definition handler : Handler :=
  fun req res => ret (send "Good Afternoon!" res).

(** The module, statement by statement. *)
Definition index_js : JS Server :=
  let app := express in
  let app := get "/" handler app in
  server <- listen app 3000 ;;
  console.log "Server is listening on http://localhost:3000" ;;
  ret server.

(** [node index.js]: the module runs to its end, then the callbacks
    queued meanwhile. *)
Definition node (sys : Z -> option string) (e : list (string * string)) (a : list string)
  : Server * Process :=
  (server <- index_js ;; net.drain ;; ret server) (boot sys e a).

(** A request that reaches the server, and what the client gets: the
    reply of the application when node emits 'request', node's own
    reply when it refuses the request, none when it destroys the socket. *)
Definition respond (server : Server) (req : IncomingMessage) : JS (option Reply) :=
  match parserOnIncoming req with
  | Request =>
      res <- handle (requestListener server) req ;;
      ret (reply_of res)
  | Refused code =>
      ret (Some {| status := code; fields := []; content := "" |})
  | Destroyed => ret None
  end.

(** Requests served one after the other. *)
Fixpoint respond_all (server : Server) (reqs : list IncomingMessage) : JS (list (option Reply)) :=
  match reqs with
  | [] => ret []
  | req :: rest =>
      r <- respond server req ;;
      rs <- respond_all server rest ;;
      ret (r :: rs)
  end.

End Program.

(** Projections of a trace. *)
Definition listens (t : list Event) : list Z :=
  flat_map (fun e => match e with Listen port => [port] | _ => [] end) t.

Definition stdout (t : list Event) : list string :=
  flat_map (fun e => match e with Stdout line => [line] | _ => [] end) t.

Definition is_bound (e : Event) : bool :=
  match e with Bound _ => true | _ => false end.

Definition is_exit (e : Event) : bool :=
  match e with Exit _ => true | _ => false end.

End Index.

(** ** The Dockerfile *)

Module Docker.

Inductive Mount :=
| cache (target : string).            (* --mount=type=cache,target=... *)

Inductive Instruction :=
| FROM (image : string)
| WORKDIR (dir : string)
| COPY (src dst : string)
| RUN (mounts : list Mount) (command : string)
| CMD (command : string).

(** The Dockerfile of the stage, instruction by instruction. *)
Definition Dockerfile : list Instruction :=
  [ FROM "node:21.6-slim";
    WORKDIR "/app";
    COPY "package.json" "/app/";
    COPY "package-lock.json" "/app/";
    RUN [cache "/root/.npm"] "npm cache ls && npm install";
    COPY "." "/app";
    CMD "node index.js" ].

(** What a build performs on the image after its base and working
    directory are chosen: one step per COPY and RUN instruction. *)
Inductive Step :=
| copied (src dst : string)
| ran (cwd : string) (mounts : list Mount) (command : string).

Record Image := mkImage {
  base : option string;
  workdir : string;
  steps : list Step;                  (* in the order performed *)
  command : option string             (* what a container runs, through the shell *)
}.

Definition scratch : Image :=
  {| base := None; workdir := "/"; steps := []; command := None |}.

Definition exec (i : Instruction) (img : Image) : Image :=
  match i with
  | FROM image =>
      {| base := Some image; workdir := "/"; steps := []; command := None |}
  | WORKDIR dir =>
      {| base := base img; workdir := dir; steps := steps img; command := command img |}
  | COPY src dst =>
      {| base := base img; workdir := workdir img;
         steps := (steps img ++ [copied src dst])%list; command := command img |}
  | RUN mounts c =>
      {| base := base img; workdir := workdir img;
         steps := (steps img ++ [ran (workdir img) mounts c])%list; command := command img |}
  | CMD c =>
      {| base := base img; workdir := workdir img; steps := steps img; command := Some c |}
  end.

(** [docker build]: the instructions from first to last. *)
Definition build (recipe : list Instruction) : Image :=
  fold_left (fun img i => exec i img) recipe scratch.

End Docker.

(** ** The stages of the talk *)

(** The README walks through four versions of [index.js] that differ in
    the string passed to [res.send] ('Hello World!', 'Good Morning!',
    'Good Afternoon!', 'Good Evening!'), and through several Dockerfiles,
    of which the first copies everything before the install. *)

Module Stages.

Import Http Node Express.

Section Program.

Context `{Packages}.

(** [(req, res) => { res.send(text); }] *)
Definition handler_of (text : string) : Handler :=
  fun req res => ret (send text res).

(** [index.js] at the stage that sends [text]. *)
Definition program (text : string) : JS Server :=
  let app := express in
  let app := get "/" (handler_of text) app in
  server <- listen app 3000 ;;
  console.log "Server is listening on http://localhost:3000" ;;
  ret server.

Definition run (text : string) (sys : Z -> option string)
           (e : list (string * string)) (a : list string) : Server * Process :=
  (server <- program text ;; net.drain ;; ret server) (boot sys e a).

End Program.

(** Stage 2 of the README: everything is copied before the install. *)
Definition Dockerfile_stage2 : list Docker.Instruction :=
  [ Docker.FROM "node:21.6-slim";
    Docker.WORKDIR "/app";
    Docker.COPY "." "/app";
    Docker.RUN [] "npm install";
    Docker.CMD "node index.js" ].

End Stages.

(** ** The layer cache of [docker build] *)

(** The README runs [docker build] again after a change and watches
    which steps are taken from the cache.  A step is taken from the cache
    when every step before it was, the instruction is the same, and, for
    COPY, the files copied have the same content.  A RUN step is looked
    up by its text alone: what the command does, whether it succeeds and
    what a cache mount holds are no part of the lookup and are not
    modelled.  The model tells which steps of a second build are found
    in the cache that a first build left after running to its end; it
    does not tell whether a build succeeds. *)

Module Cache.

Import Docker.

(** A file of the build context: its path from the root of the context,
    and its content. *)
Definition File : Type := (string * string)%type.

(** The build context as the builder receives it, that is without what
    [.dockerignore] names ([node_modules]): its files, each path once,
    in the order of their paths. *)
Definition Context : Type := list File.

(** Whether a COPY source names a file of the context: the file of that
    path, or a file of the directory of that path. *)
Definition names (src path : string) : bool :=
  String.eqb path src || String.prefix (src ++ "/") path.

(** The files a COPY source names: [.] is the whole context, any other
    source is a file or a directory of the context.  A source that
    names no file fails the build. *)
Definition sources (src : string) (ctx : Context) : option (list File) :=
  if String.eqb src "." then Some ctx
  else match filter (fun f => names src (fst f)) ctx with
       | [] => None
       | f :: fs => Some (f :: fs)
       end.

(** What a step is looked up by: the instruction and the files it reads. *)
Inductive Key :=
| key (i : Instruction) (inputs : list File).

Definition cache_key (ctx : Context) (i : Instruction) : option Key :=
  match i with
  | COPY src _ => option_map (key i) (sources src ctx)
  | _ => Some (key i [])
  end.

(** The keys of the steps of a build, in order; none when a COPY names
    no file.  (A build can also stop at a RUN whose command fails; the
    keys are those of a build that gets past its commands.) *)
Fixpoint plan (recipe : list Instruction) (ctx : Context) : option (list Key) :=
  match recipe with
  | [] => Some []
  | i :: rest =>
      match cache_key ctx i, plan rest ctx with
      | Some k, Some ks => Some (k :: ks)
      | _, _ => None
      end
  end.

Definition File_eq_dec (x y : File) : {x = y} + {x <> y}.
Proof. decide equality; apply string_dec. Defined.

Definition Mount_eq_dec (x y : Mount) : {x = y} + {x <> y}.
Proof. decide equality; apply string_dec. Defined.

Definition Instruction_eq_dec (x y : Instruction) : {x = y} + {x <> y}.
Proof. decide equality; try apply string_dec; apply (list_eq_dec Mount_eq_dec). Defined.

Definition Key_eq_dec (x y : Key) : {x = y} + {x <> y}.
Proof.
  decide equality; [ apply (list_eq_dec File_eq_dec) | apply Instruction_eq_dec ].
Defined.

(** Which steps of a build are taken from the cache a previous build
    left: those up to the first step whose key differs. *)
Fixpoint hits (old new : list Key) : list bool :=
  match new with
  | [] => []
  | n :: ns =>
      match old with
      | o :: os =>
          if Key_eq_dec o n then true :: hits os ns
          else map (fun _ => false) new
      | [] => map (fun _ => false) new
      end
  end.

(** [docker build] of a recipe on the context [before], run to its
    end, then again on the context [after]: for each step of the second
    build, whether it is found in the cache. *)
Definition rebuild (recipe : list Instruction) (before after : Context) : option (list bool) :=
  match plan recipe before, plan recipe after with
  | Some old, Some new => Some (hits old new)
  | _, _ => None
  end.

End Cache.

(** ** Sample inputs *)

Module Sample.

Import Http Express.

Definition dquote : string := String (ascii_of_nat 34) EmptyString.

(** Stand-ins for the helper packages, to run the model on inputs. *)
Definition packages : Packages := {|
  etag := fun b => "W/" ++ dquote ++ Str.decimal (String.length b) ++ "-tag" ++ dquote;
  setCharset := fun type _ => type;
  no_cache := fun cc => String.eqb cc "no-cache";
  parseTokenList := fun l => [l];
  date_le := fun _ _ => false;
  encodeUrl := fun u => u;
  createHtmlDocument := fun m => "<pre>" ++ m ++ "</pre>"
|}.

(** A string with a first character is not the empty string. *)
Definition nonempty (c : ascii) (s : string) : String c s <> "" :=
  fun e => eq_ind (String c s)
                  (fun t => match t with EmptyString => False | String _ _ => True end)
                  I "" e.

(** [curl http://localhost:3000] *)
Definition get_root : IncomingMessage :=
  {| httpVersion := "1.1"; method := "GET"; pathname := "/"; query := "";
     headers := [("host", "localhost:3000"); ("accept", "*/*")]; body := "";
     pathname_nonempty := nonempty "/" "" |}.

(** [curl -H 'If-None-Match: *' http://localhost:3000] *)
Definition get_root_if_none_match : IncomingMessage :=
  {| httpVersion := "1.1"; method := "GET"; pathname := "/"; query := "";
     headers := [("host", "localhost:3000"); ("if-none-match", "*")]; body := "";
     pathname_nonempty := nonempty "/" "" |}.

(** [curl -I http://localhost:3000] *)
Definition head_root : IncomingMessage :=
  {| httpVersion := "1.1"; method := "HEAD"; pathname := "/"; query := "";
     headers := [("host", "localhost:3000")]; body := "";
     pathname_nonempty := nonempty "/" "" |}.

(** [curl -I -H 'If-None-Match: *' http://localhost:3000] *)
Definition head_root_if_none_match : IncomingMessage :=
  {| httpVersion := "1.1"; method := "HEAD"; pathname := "/"; query := "";
     headers := [("host", "localhost:3000"); ("if-none-match", "*")]; body := "";
     pathname_nonempty := nonempty "/" "" |}.

(** [curl http://localhost:3000/about] *)
Definition get_about : IncomingMessage :=
  {| httpVersion := "1.1"; method := "GET"; pathname := "/about"; query := "";
     headers := [("host", "localhost:3000")]; body := "";
     pathname_nonempty := nonempty "/" "about" |}.

(** [curl -X POST -d hello http://localhost:3000] *)
Definition post_root : IncomingMessage :=
  {| httpVersion := "1.1"; method := "POST"; pathname := "/"; query := "";
     headers := [("host", "localhost:3000"); ("content-length", "5")]; body := "hello";
     pathname_nonempty := nonempty "/" "" |}.

(** [curl -X OPTIONS http://localhost:3000] *)
Definition options_root : IncomingMessage :=
  {| httpVersion := "1.1"; method := "OPTIONS"; pathname := "/"; query := "";
     headers := [("host", "localhost:3000")]; body := "";
     pathname_nonempty := nonempty "/" "" |}.

(** [curl 'http://localhost:3000/?name=x'] *)
Definition get_root_query : IncomingMessage :=
  {| httpVersion := "1.1"; method := "GET"; pathname := "/"; query := "name=x";
     headers := [("host", "localhost:3000"); ("accept", "*/*")]; body := "";
     pathname_nonempty := nonempty "/" "" |}.

(** [curl -H 'If-None-Match: *' -H 'Cache-Control: no-cache' http://localhost:3000] *)
Definition get_root_reload : IncomingMessage :=
  {| httpVersion := "1.1"; method := "GET"; pathname := "/"; query := "";
     headers := [("host", "localhost:3000"); ("if-none-match", "*");
                 ("cache-control", "no-cache")]; body := "";
     pathname_nonempty := nonempty "/" "" |}.

(** [curl -I http://localhost:3000/about] *)
Definition head_about : IncomingMessage :=
  {| httpVersion := "1.1"; method := "HEAD"; pathname := "/about"; query := "";
     headers := [("host", "localhost:3000")]; body := "";
     pathname_nonempty := nonempty "/" "about" |}.

(** A machine where port 3000 is free and port 8080 is not. *)
Definition other_taken : Z -> option string :=
  fun port => if port =? 8080 then Some "EADDRINUSE" else None.

(** The build context of the repository, and the same after an edit of
    [index.js], and after a version bump in [package.json]. *)
Definition context : Cache.Context :=
  [ ("package.json", "{ version: 1.1.0 }");
    ("package-lock.json", "{ lockfileVersion: 3 }");
    ("index.js", "res.send('Good Morning!');");
    ("Dockerfile", "FROM node:21.6-slim") ].

Definition context_edited : Cache.Context :=
  [ ("package.json", "{ version: 1.1.0 }");
    ("package-lock.json", "{ lockfileVersion: 3 }");
    ("index.js", "res.send('Good Afternoon!');");
    ("Dockerfile", "FROM node:21.6-slim") ].

Definition context_bumped : Cache.Context :=
  [ ("package.json", "{ version: 1.2.0 }");
    ("package-lock.json", "{ lockfileVersion: 3 }");
    ("index.js", "res.send('Good Morning!');");
    ("Dockerfile", "FROM node:21.6-slim") ].

(** [curl -H 'Expect: foo' http://localhost:3000] *)
Definition get_root_expect : IncomingMessage :=
  {| httpVersion := "1.1"; method := "GET"; pathname := "/"; query := "";
     headers := [("host", "localhost:3000"); ("expect", "foo")]; body := "";
     pathname_nonempty := nonempty "/" "" |}.

(** [curl --http1.0 -H 'Expect: foo' http://localhost:3000] *)
Definition get_root_expect_http10 : IncomingMessage :=
  {| httpVersion := "1.0"; method := "GET"; pathname := "/"; query := "";
     headers := [("host", "localhost:3000"); ("expect", "foo")]; body := "";
     pathname_nonempty := nonempty "/" "" |}.

(** [curl -H 'Expect: foo' http://localhost:3000/about] *)
Definition get_about_expect : IncomingMessage :=
  {| httpVersion := "1.1"; method := "GET"; pathname := "/about"; query := "";
     headers := [("host", "localhost:3000"); ("expect", "foo")]; body := "";
     pathname_nonempty := nonempty "/" "about" |}.

(** [curl -I -H 'Expect: foo' http://localhost:3000] *)
Definition head_root_expect : IncomingMessage :=
  {| httpVersion := "1.1"; method := "HEAD"; pathname := "/"; query := "";
     headers := [("host", "localhost:3000"); ("expect", "foo")]; body := "";
     pathname_nonempty := nonempty "/" "" |}.

(** [curl -X POST -d hello -H 'Expect: 100-continue' http://localhost:3000/about] *)
Definition post_about_continue : IncomingMessage :=
  {| httpVersion := "1.1"; method := "POST"; pathname := "/about"; query := "";
     headers := [("host", "localhost:3000"); ("expect", "100-continue");
                 ("content-length", "5")]; body := "hello";
     pathname_nonempty := nonempty "/" "about" |}.

(** A machine where every port is free, and one where port 3000 is taken. *)
Definition free : Z -> option string := fun _ => None.

Definition taken : Z -> option string :=
  fun port => if port =? 3000 then Some "EADDRINUSE" else None.

End Sample.

(** * Properties *)

Import Http Node Express Index.

(** ** Path matching *)

Lemma lower_ascii_slash (c : ascii) : Str.lower_ascii c = "/"%char -> c = "/"%char.
Proof.
  destruct c as [[] [] [] [] [] [] [] []]; vm_compute; intro E;
    first [ reflexivity | discriminate E ].
Qed.

Lemma toLowerCase_slash (p : string) : Str.toLowerCase p = "/" -> p = "/".
Proof.
  destruct p as [|c [|d rest]]; simpl; intro E; try discriminate E.
  injection E as E. apply lower_ascii_slash in E. now subst.
Qed.

Lemma toLowerCase_eqb_slash (p : string) :
  String.eqb (Str.toLowerCase p) "/" = String.eqb p "/".
Proof.
  destruct (String.eqb_spec p "/") as [-> | N]; [ reflexivity | ].
  destruct (String.eqb_spec (Str.toLowerCase p) "/") as [E | _]; [ | reflexivity ].
  elim N. apply toLowerCase_slash. exact E.
Qed.

Lemma toLowerCase_eqb_empty (p : string) :
  p <> "" -> String.eqb (Str.toLowerCase p) "" = false.
Proof. destruct p as [|c rest]; [ intro N; now elim N | reflexivity ]. Qed.

(** The route path [/] takes the path [/] and no other path a request can carry. *)
Lemma layer_match_root (p : string) :
  p <> "" -> layer_match "/" p = String.eqb p "/".
Proof.
  intro Hne. unfold layer_match.
  change (Str.toLowerCase (Str.strip_slash "/")) with "".
  change ("" ++ "/") with "/".
  rewrite toLowerCase_eqb_slash, (toLowerCase_eqb_empty p Hne). reflexivity.
Qed.

(** ** What node answers itself *)

(** Only CONNECT has its socket destroyed. *)
Lemma incoming_destroyed (req : IncomingMessage) :
  parserOnIncoming req = Destroyed <-> method req = "CONNECT".
Proof.
  unfold parserOnIncoming.
  destruct (String.eqb_spec (method req) "CONNECT") as [E | N].
  - split; auto.
  - split; [ | intro E; now elim N ].
    destruct (String.eqb (httpVersion req) "1.1"); [ | discriminate ].
    destruct (getHeader "host" (headers req)); [ | discriminate ].
    destruct (getHeader "expect" (headers req)) as [expect|]; [ | discriminate ].
    destruct (continueExpression expect); discriminate.
Qed.

(** node refuses HTTP/1.1 requests only: with 400 the one that names no
    host, with 417 the one that expects something else than
    100-continue. *)
Lemma incoming_refused (req : IncomingMessage) (code : Z) :
  parserOnIncoming req = Refused code ->
  httpVersion req = "1.1" /\
  ((code = 400 /\ getHeader "host" (headers req) = None) \/
   (code = 417 /\ exists expect, getHeader "expect" (headers req) = Some expect /\
                                 continueExpression expect = false)).
Proof.
  unfold parserOnIncoming.
  destruct (String.eqb (method req) "CONNECT"); [ discriminate | ].
  destruct (String.eqb_spec (httpVersion req) "1.1") as [V | _]; [ | discriminate ].
  destruct (getHeader "host" (headers req)).
  - destruct (getHeader "expect" (headers req)) as [expect|]; [ | discriminate ].
    destruct (continueExpression expect) eqn:C; [ discriminate | ].
    intro E. injection E as <-. split; [ exact V | right ].
    split; [ reflexivity | exists expect; split; [ reflexivity | exact C ] ].
  - intro E. injection E as <-. split; [ exact V | left; split; reflexivity ].
Qed.

(** The requests the listener gets: every request of another version
    than 1.1 but CONNECT, and the HTTP/1.1 requests that name a host and
    expect nothing, or 100-continue. *)
Lemma incoming_request (req : IncomingMessage) :
  parserOnIncoming req = Request <->
  method req <> "CONNECT" /\
  (httpVersion req <> "1.1" \/
   (getHeader "host" (headers req) <> None /\
    match getHeader "expect" (headers req) with
    | None => True
    | Some expect => continueExpression expect = true
    end)).
Proof.
  unfold parserOnIncoming.
  destruct (String.eqb_spec (method req) "CONNECT") as [M | M].
  - split; [ discriminate | intros [N _]; now elim N ].
  - destruct (String.eqb_spec (httpVersion req) "1.1") as [V | V].
    + destruct (getHeader "host" (headers req)) as [host|].
      * destruct (getHeader "expect" (headers req)) as [expect|].
        -- destruct (continueExpression expect).
           ++ split; [ intros _ | reflexivity ].
              split; [ exact M | right; split; [ discriminate | reflexivity ] ].
           ++ split; [ discriminate | ].
              intros [_ [N | [_ C]]]; [ now elim N | discriminate C ].
        -- split; [ intros _ | reflexivity ].
           split; [ exact M | right; split; [ discriminate | exact I ] ].
      * split; [ discriminate | ].
        intros [_ [N | [N _]]]; [ now elim N | now elim N ].
    + split; [ intros _ | reflexivity ]. split; [ exact M | left; exact V ].
Qed.

(** ** What express answers *)

Section Evaluation.

Context `{Packages}.

(** The first part of [res.send(text)] on a response that carries only
    the X-Powered-By field, for any text. *)
Lemma send_headers_any (text : string) (req : IncomingMessage) :
  send_headers text (expressInit (createResponse req)) =
  {| res_req := req; statusCode := 200;
     res_headers := [("X-Powered-By", "Express");
                     ("Content-Type", "text/html; charset=utf-8");
                     ("Content-Length", Str.decimal (String.length text));
                     ("ETag", etag text)];
     ended := None |}.
Proof. reflexivity. Qed.

(** What [res.send(text)] answers on such a response, for any method. *)
Lemma send_first (text : string) (req : IncomingMessage) :
  reply_of (send text (expressInit (createResponse req))) =
  Some (if (String.eqb (method req) "GET" || String.eqb (method req) "HEAD")
           && fresh (headers req) (Some (etag text)) None
        then {| status := 304;
                fields := [("X-Powered-By", "Express"); ("ETag", etag text)];
                content := "" |}
        else {| status := 200;
                fields := [("X-Powered-By", "Express");
                           ("Content-Type", "text/html; charset=utf-8");
                           ("Content-Length", Str.decimal (String.length text));
                           ("ETag", etag text)];
                content := if String.eqb (method req) "HEAD" then "" else text |}).
Proof.
  destruct req as [v m pn q h b ne].
  unfold send. rewrite send_headers_any. cbv zeta.
  unfold req_fresh. cbv zeta. cbn [res_req method headers statusCode].
  change (Http.get "ETag" _) with (Some (etag text)).
  change (Http.get "Last-Modified" _) with (@None string).
  change ((200 <=? 200) && (200 <? 300) || (200 =? 304)) with true.
  destruct (String.eqb m "GET") eqn:Eg, (String.eqb m "HEAD") eqn:Eh,
    (fresh h (Some (etag text)) None);
    cbn [orb andb negb];
    unfold send_body, with_status, Http.remove; cbv zeta;
    cbn [res_req method statusCode];
    try change ((304 =? 204) || (304 =? 304)) with true;
    try change ((200 =? 204) || (200 =? 304)) with false;
    cbn [res_req method]; rewrite ?Eh; reflexivity.
Qed.

(** The default not-found reply on such a response. *)
Lemma finalhandler_first (req : IncomingMessage) :
  reply_of (finalhandler req (expressInit (createResponse req))) =
  Some {| status := 404;
          fields := [("X-Powered-By", "Express");
                     ("Content-Security-Policy", "default-src 'none'");
                     ("X-Content-Type-Options", "nosniff");
                     ("Content-Type", "text/html; charset=utf-8");
                     ("Content-Length",
                      Str.decimal (String.length
                        (createHtmlDocument
                           ("Cannot " ++ method req ++ " " ++ encodeUrl (pathname req)))))];
          content := if String.eqb (method req) "HEAD" then ""
                     else createHtmlDocument
                            ("Cannot " ++ method req ++ " " ++ encodeUrl (pathname req)) |}.
Proof.
  unfold finalhandler. destruct (String.eqb (method req) "HEAD"); reflexivity.
Qed.

(** The automatic reply to OPTIONS for a path that has the GET route. *)
Lemma options_first (req : IncomingMessage) :
  method req = "OPTIONS" ->
  reply_of (sendOptionsResponse ["GET"; "HEAD"] (expressInit (createResponse req))) =
  Some {| status := 200;
          fields := [("X-Powered-By", "Express");
                     ("Allow", "GET,HEAD");
                     ("Content-Type", "text/html; charset=utf-8");
                     ("Content-Length", "8");
                     ("ETag", etag "GET,HEAD")];
          content := "GET,HEAD" |}.
Proof.
  intro Hm. destruct req as [v m pn q h b ne]. cbn [method] in Hm. subst m.
  reflexivity.
Qed.

(** A GET route answers the methods whose lower-case name is get or head. *)
Lemma handles_method_get (path : string) (callback : Handler) (m : string) :
  handles_method {| route_path := path; route_method := "get"; route_handle := callback |} m =
  String.eqb (Str.toLowerCase m) "get" || String.eqb (Str.toLowerCase m) "head".
Proof.
  unfold handles_method. cbn [route_method].
  change (negb (String.eqb "get" "head")) with true.
  destruct (String.eqb_spec (Str.toLowerCase m) "head") as [E | N].
  - rewrite E. reflexivity.
  - cbn [andb]. rewrite orb_false_r. reflexivity.
Qed.

(** A request without validators is never fresh. *)
Lemma fresh_unconditional (h : Headers) (tag modified : option string) :
  getHeader "if-none-match" h = None ->
  getHeader "if-modified-since" h = None ->
  fresh h tag modified = false.
Proof. intros Hn Hm. unfold fresh. rewrite Hn, Hm. reflexivity. Qed.

(** A request that carries [If-None-Match: *] and neither
    If-Modified-Since nor Cache-Control is fresh, whatever the entity tag
    of the response and whatever the helper packages compute. *)
Lemma fresh_if_none_match_star (h : Headers) (tag modified : option string) :
  getHeader "if-none-match" h = Some "*" ->
  getHeader "if-modified-since" h = None ->
  getHeader "cache-control" h = None ->
  fresh h tag modified = true.
Proof. intros Hn Hm Hc. unfold fresh. rewrite Hn, Hm, Hc. reflexivity. Qed.

(** As the server sends no Last-Modified field, a request is fresh only
    through If-None-Match: the field must be there, and there must be no
    If-Modified-Since beside it, or an empty one. *)
Lemma fresh_needs_none_match (h : Headers) (tag : option string) :
  fresh h tag None = true ->
  Str.truthy (getHeader "if-none-match" h) = true /\
  Str.truthy (getHeader "if-modified-since" h) = false.
Proof.
  unfold fresh.
  destruct (getHeader "if-modified-since" h) as [[|c1 s1]|];
    destruct (getHeader "if-none-match" h) as [[|c2 s2]|];
    cbn [Str.truthy negb andb orb];
    repeat match goal with
           | |- context [if ?c then _ else _] => destruct c
           end;
    intro F; try discriminate F; split; reflexivity.
Qed.

(** Under Cache-Control no-cache no request is fresh. *)
Lemma fresh_no_cache (h : Headers) (tag modified : option string) (cc : string) :
  getHeader "cache-control" h = Some cc ->
  cc <> "" ->
  no_cache cc = true ->
  fresh h tag modified = false.
Proof.
  intros Hc Hne Hnc. unfold fresh. rewrite Hc.
  destruct cc as [|c s]; [ now elim Hne | ].
  cbn [Str.truthy]. rewrite Hnc. cbn [andb].
  destruct (negb _ && negb _); reflexivity.
Qed.

Variable sys : Z -> option string.
Variable e : list (string * string).
Variable a : list string.

(** The run of any stage of [index.js], written out: the string sent
    plays no part in it. *)
Lemma run_eval (text : string) :
  Stages.run text sys e a =
  ({| requestListener := get "/" (Stages.handler_of text) express; address := 3000 |},
   match sys 3000 with
   | None =>
       {| env := e; argv := a; system := sys;
          trace := [Listen 3000; Bound 3000;
                    Stdout "Server is listening on http://localhost:3000"];
          sockets := [3000]; tickQueue := [];
          errorListeners := 0; uncaughtListeners := 0; exitCode := None |}
   | Some code =>
       {| env := e; argv := a; system := sys;
          trace := [Listen 3000; BindFailed 3000 code;
                    Stdout "Server is listening on http://localhost:3000";
                    Uncaught code; Exit 1];
          sockets := []; tickQueue := [];
          errorListeners := 0; uncaughtListeners := 0; exitCode := Some 1 |}
   end).
Proof.
  unfold Stages.run, Stages.program, listen, net.listen, net.drain, console.log, boot,
    bind, emit, ask, ret.
  simpl. destruct (sys 3000) as [code|]; reflexivity.
Qed.

(** The shipped [index.js] is the stage that sends 'Good Afternoon!'. *)
Lemma node_is_stage : node sys e a = Stages.run "Good Afternoon!" sys e a.
Proof. reflexivity. Qed.

(** The run of [node index.js], written out. *)
Lemma node_run :
  node sys e a =
  ({| requestListener := get "/" handler express; address := 3000 |},
   match sys 3000 with
   | None =>
       {| env := e; argv := a; system := sys;
          trace := [Listen 3000; Bound 3000;
                    Stdout "Server is listening on http://localhost:3000"];
          sockets := [3000]; tickQueue := [];
          errorListeners := 0; uncaughtListeners := 0; exitCode := None |}
   | Some code =>
       {| env := e; argv := a; system := sys;
          trace := [Listen 3000; BindFailed 3000 code;
                    Stdout "Server is listening on http://localhost:3000";
                    Uncaught code; Exit 1];
          sockets := []; tickQueue := [];
          errorListeners := 0; uncaughtListeners := 0; exitCode := Some 1 |}
   end).
Proof. rewrite node_is_stage. apply run_eval. Qed.

(** The reply of the server of any stage: node's own answer, or that of
    the application by path and method. *)
Lemma respond_cases (text : string) (req : IncomingMessage) (p : Process) :
  respond (fst (Stages.run text sys e a)) req p =
  (match parserOnIncoming req with
   | Request =>
       if String.eqb (pathname req) "/" then
         if String.eqb (Str.toLowerCase (method req)) "get"
            || String.eqb (Str.toLowerCase (method req)) "head"
         then reply_of (send text (expressInit (createResponse req)))
         else if String.eqb (method req) "OPTIONS"
              then reply_of (sendOptionsResponse ["GET"; "HEAD"]
                               (expressInit (createResponse req)))
              else reply_of (finalhandler req (expressInit (createResponse req)))
       else reply_of (finalhandler req (expressInit (createResponse req)))
   | Refused code => Some {| status := code; fields := []; content := "" |}
   | Destroyed => None
   end, p).
Proof.
  rewrite run_eval. unfold respond.
  destruct (parserOnIncoming req); [ | reflexivity | reflexivity ].
  unfold handle, get, express.
  cbn [fst requestListener router app]. unfold bind. cbn [next].
  cbn [route_path route_handle].
  rewrite (layer_match_root _ (pathname_nonempty req)), handles_method_get.
  destruct (String.eqb (pathname req) "/"); [ | reflexivity ].
  destruct (String.eqb (Str.toLowerCase (method req)) "get"
            || String.eqb (Str.toLowerCase (method req)) "head"); [ reflexivity | ].
  destruct (String.eqb (method req) "OPTIONS"); reflexivity.
Qed.

(** Whatever the request, serving it leaves the process as it was, and
    the reply does not depend on the state of the process. *)
Lemma respond_pure (req : IncomingMessage) (p p' : Process) :
  respond (fst (node sys e a)) req p = (fst (respond (fst (node sys e a)) req p'), p).
Proof. rewrite node_is_stage, !respond_cases. reflexivity. Qed.

Lemma respond_all_pure (reqs : list IncomingMessage) (p p' : Process) :
  respond_all (fst (node sys e a)) reqs p =
  (map (fun req => fst (respond (fst (node sys e a)) req p')) reqs, p).
Proof.
  induction reqs as [|req rest IH]; [ reflexivity | ].
  simpl. unfold bind at 1. rewrite (respond_pure req p p').
  unfold bind at 1. rewrite IH. reflexivity.
Qed.

End Evaluation.

(** ** Requests *)

Section Requests.

Context `{Packages}.
Variable sys : Z -> option string.
Variable e : list (string * string).
Variable a : list string.

(** C1 (amended).  Every GET request to [/] that node hands to the
    application is answered by the callback, which sends the fixed
    string and reads nothing of the request.  The reply is 200 with the
    body "Good Afternoon!", the same whatever the query string, the body
    and the headers are, with one exception made by the framework inside
    [res.send]: a conditional request it finds fresh is answered 304 with
    an empty body.  The requests node does not hand over it answers
    itself, with an empty body: an HTTP/1.1 request that names no host
    with 400, one that expects something else than 100-continue with
    417.  The process is left as it was. *)
Theorem get_root_reply (req : IncomingMessage) (p : Process) :
  method req = "GET" ->
  pathname req = "/" ->
  respond (fst (node sys e a)) req p =
  (Some match parserOnIncoming req with
        | Refused code => {| status := code; fields := []; content := "" |}
        | _ =>
            if fresh (headers req) (Some (etag "Good Afternoon!")) None
            then {| status := 304;
                    fields := [("X-Powered-By", "Express");
                               ("ETag", etag "Good Afternoon!")];
                    content := "" |}
            else {| status := 200;
                    fields := [("X-Powered-By", "Express");
                               ("Content-Type", "text/html; charset=utf-8");
                               ("Content-Length", "15");
                               ("ETag", etag "Good Afternoon!")];
                    content := "Good Afternoon!" |}
        end, p).
Proof.
  intros Hm Hp. rewrite node_is_stage, respond_cases, send_first, Hp, Hm.
  destruct (parserOnIncoming req) eqn:G; [ reflexivity | reflexivity | ].
  apply incoming_destroyed in G. rewrite Hm in G. discriminate G.
Qed.

(** C10 (amended).  Every HEAD request to [/] that node hands to the
    application is served by the GET route: the reply has the headers of
    the GET reply and no body, with status 200 unless the request is
    conditional and fresh, which is answered 304.  As for GET, node
    answers itself an HTTP/1.1 request that names no host (400) or
    expects something else than 100-continue (417). *)
Theorem head_root_reply (req : IncomingMessage) (p : Process) :
  method req = "HEAD" ->
  pathname req = "/" ->
  respond (fst (node sys e a)) req p =
  (Some match parserOnIncoming req with
        | Refused code => {| status := code; fields := []; content := "" |}
        | _ =>
            if fresh (headers req) (Some (etag "Good Afternoon!")) None
            then {| status := 304;
                    fields := [("X-Powered-By", "Express");
                               ("ETag", etag "Good Afternoon!")];
                    content := "" |}
            else {| status := 200;
                    fields := [("X-Powered-By", "Express");
                               ("Content-Type", "text/html; charset=utf-8");
                               ("Content-Length", "15");
                               ("ETag", etag "Good Afternoon!")];
                    content := "" |}
        end, p).
Proof.
  intros Hm Hp. rewrite node_is_stage, respond_cases, send_first, Hp, Hm.
  destruct (parserOnIncoming req) eqn:G; [ | reflexivity | ].
  - change (String.eqb "/" "/") with true.
    change (String.eqb (Str.toLowerCase "HEAD") "get"
            || String.eqb (Str.toLowerCase "HEAD") "head") with true.
    change (String.eqb "HEAD" "GET" || String.eqb "HEAD" "HEAD") with true.
    change (String.eqb "HEAD" "HEAD") with true.
    destruct (fresh (headers req) (Some (etag "Good Afternoon!")) None); reflexivity.
  - apply incoming_destroyed in G. rewrite Hm in G. discriminate G.
Qed.

(** C5 (amended).  A successful (200) reply to GET [/] carries the fixed
    string as its body, untouched by any template, and is labelled
    [text/html; charset=utf-8], the framework's default for a string
    passed to [res.send]; the label is not negotiated with the request. *)
Theorem get_root_content_type (req : IncomingMessage) (p : Process) (r : Reply) :
  method req = "GET" ->
  pathname req = "/" ->
  fst (respond (fst (node sys e a)) req p) = Some r ->
  status r = 200 ->
  getHeader "Content-Type" (fields r) = Some "text/html; charset=utf-8" /\
  content r = "Good Afternoon!".
Proof.
  intros Hm Hp Hr Hs.
  rewrite node_is_stage, respond_cases, send_first, Hp, Hm in Hr. cbn [fst] in Hr.
  destruct (parserOnIncoming req) as [ | code | ] eqn:G.
  - change (String.eqb "/" "/") with true in Hr.
    change (String.eqb (Str.toLowerCase "GET") "get"
            || String.eqb (Str.toLowerCase "GET") "head") with true in Hr.
    change (String.eqb "GET" "GET" || String.eqb "GET" "HEAD") with true in Hr.
    change (String.eqb "GET" "HEAD") with false in Hr.
    destruct (fresh (headers req) (Some (etag "Good Afternoon!")) None);
      injection Hr as <-; [ discriminate Hs | split; reflexivity ].
  - injection Hr as <-. cbn [status] in Hs. subst code.
    apply incoming_refused in G. destruct G as [_ [[C _] | [C _]]]; discriminate C.
  - discriminate Hr.
Qed.

(** C2 (amended).  A request whose path is not [/] reaches no route of
    the program: when node hands it to the application, the reply is
    the one the framework's final handler writes, 404 with its HTML page
    (no page for HEAD).  The requests node does not hand over get no
    such reply: an HTTP/1.1 request that names no host is answered 400
    and one that expects something else than 100-continue 417, by node
    and with an empty body, and a CONNECT request has its connection
    closed without a reply. *)
Theorem other_path_not_found (req : IncomingMessage) (p : Process) :
  pathname req <> "/" ->
  respond (fst (node sys e a)) req p =
  (match parserOnIncoming req with
   | Request => reply_of (finalhandler req (expressInit (createResponse req)))
   | Refused code => Some {| status := code; fields := []; content := "" |}
   | Destroyed => None
   end, p) /\
  reply_of (finalhandler req (expressInit (createResponse req))) =
  Some {| status := 404;
          fields := [("X-Powered-By", "Express");
                     ("Content-Security-Policy", "default-src 'none'");
                     ("X-Content-Type-Options", "nosniff");
                     ("Content-Type", "text/html; charset=utf-8");
                     ("Content-Length",
                      Str.decimal (String.length
                        (createHtmlDocument
                           ("Cannot " ++ method req ++ " " ++ encodeUrl (pathname req)))))];
          content := if String.eqb (method req) "HEAD" then ""
                     else createHtmlDocument
                            ("Cannot " ++ method req ++ " " ++ encodeUrl (pathname req)) |}.
Proof.
  intro Hp. split; [ | apply finalhandler_first ].
  rewrite node_is_stage, respond_cases.
  destruct (String.eqb_spec (pathname req) "/") as [E | _]; [ now elim Hp | reflexivity ].
Qed.

(** C7.  The callback changes nothing but the response object it is
    given, and the server keeps no state between requests: a sequence
    of requests leaves the process as it was, and each request gets the
    reply it would get alone, from any state of the process. *)
Theorem respond_stateless (reqs : list IncomingMessage) (p p' : Process) :
  (forall req res, handler req res p = (send "Good Afternoon!" res, p)) /\
  respond_all (fst (node sys e a)) reqs p =
  (map (fun req => fst (respond (fst (node sys e a)) req p')) reqs, p).
Proof.
  split; [ reflexivity | apply respond_all_pure ].
Qed.

End Requests.

(** ** Startup *)

Section Startup.

Context `{Packages}.
Variable sys : Z -> option string.
Variable e : list (string * string).
Variable a : list string.

(** C3 (amended).  Whatever the environment variables and the
    command-line arguments, the program asks for one listening socket,
    on port 3000: [listen] is called once, with 3000; the only socket
    ever bound is on 3000, and it is the one socket the process holds
    when the system grants it.  When the system refuses it the process
    holds no socket.  Another environment or argument list gives the
    same run. *)
Theorem listens_on_3000_only (e' : list (string * string)) (a' : list string) :
  address (fst (node sys e a)) = 3000 /\
  listens (trace (snd (node sys e a))) = [3000] /\
  filter is_bound (trace (snd (node sys e a))) =
    match sys 3000 with None => [Bound 3000] | Some _ => [] end /\
  sockets (snd (node sys e a)) =
    match sys 3000 with None => [3000] | Some _ => [] end /\
  trace (snd (node sys e' a')) = trace (snd (node sys e a)) /\
  sockets (snd (node sys e' a')) = sockets (snd (node sys e a)).
Proof.
  rewrite !node_run. simpl. destruct (sys 3000); repeat split; reflexivity.
Qed.

(** C4 (amended).  The process writes exactly one startup line.  It is
    written after [app.listen] has been called and has returned: after
    the socket is bound when the system grants it, and no socket is
    bound after the line.  When the system refuses the socket the line
    is written all the same. *)
Theorem startup_line_order :
  exists pre post,
    trace (snd (node sys e a)) =
      (pre ++ Stdout "Server is listening on http://localhost:3000" :: post)%list /\
    stdout pre = [] /\ stdout post = [] /\
    listens pre = [3000] /\
    existsb is_bound post = false /\
    existsb is_bound pre = match sys 3000 with None => true | Some _ => false end.
Proof.
  rewrite node_run. simpl. destruct (sys 3000) as [code|].
  - exists [Listen 3000; BindFailed 3000 code], [Uncaught code; Exit 1].
    repeat split; reflexivity.
  - exists [Listen 3000; Bound 3000], []. repeat split; reflexivity.
Qed.

(** C9.  When the system refuses the socket on port 3000, the startup
    line is still the one line on standard output, written before the
    process ends; no socket was bound, and the process ends with code 1
    on the uncaught error. *)
Theorem startup_line_despite_failure (code : string) :
  sys 3000 = Some code ->
  stdout (trace (snd (node sys e a))) = ["Server is listening on http://localhost:3000"] /\
  existsb is_bound (trace (snd (node sys e a))) = false /\
  sockets (snd (node sys e a)) = [] /\
  exitCode (snd (node sys e a)) = Some 1 /\
  exists pre post,
    trace (snd (node sys e a)) =
      (pre ++ Stdout "Server is listening on http://localhost:3000" :: post)%list /\
    existsb is_exit pre = false /\
    post = [Uncaught code; Exit 1].
Proof.
  intro Hsys. rewrite node_run, Hsys. simpl. repeat split.
  exists [Listen 3000; BindFailed 3000 code], [Uncaught code; Exit 1].
  repeat split; reflexivity.
Qed.

(** C6.  The program installs no listener for 'error' or for
    'uncaughtException' and calls [listen] once: a refusal of the
    socket is reported by the runtime as an uncaught error and ends the
    process with code 1, with no second attempt.  Standard output holds
    the startup line and nothing else, also after any requests served. *)
Theorem no_error_handling (reqs : list IncomingMessage) :
  errorListeners (snd (node sys e a)) = 0%nat /\
  uncaughtListeners (snd (node sys e a)) = 0%nat /\
  listens (trace (snd (node sys e a))) = [3000] /\
  stdout (trace (snd (node sys e a))) = ["Server is listening on http://localhost:3000"] /\
  match sys 3000 with
  | Some code =>
      trace (snd (node sys e a)) =
        [Listen 3000; BindFailed 3000 code;
         Stdout "Server is listening on http://localhost:3000";
         Uncaught code; Exit 1] /\
      exitCode (snd (node sys e a)) = Some 1
  | None => exitCode (snd (node sys e a)) = None
  end /\
  trace (snd (respond_all (fst (node sys e a)) reqs (snd (node sys e a)))) =
    trace (snd (node sys e a)).
Proof.
  rewrite (respond_all_pure sys e a reqs (snd (node sys e a)) (snd (node sys e a))).
  rewrite !node_run. simpl. destruct (sys 3000); repeat split; reflexivity.
Qed.

End Startup.

(** ** The container image *)

(** C8.  The build starts from the node image, works in [/app], and
    then performs these steps in this order and no other: copy
    [package.json], copy [package-lock.json], run the install with the
    npm cache mounted, copy the source; the image runs [node index.js]. *)
Theorem dockerfile_steps :
  Docker.build Docker.Dockerfile =
  {| Docker.base := Some "node:21.6-slim";
     Docker.workdir := "/app";
     Docker.steps :=
       [ Docker.copied "package.json" "/app/";
         Docker.copied "package-lock.json" "/app/";
         Docker.ran "/app" [Docker.cache "/root/.npm"] "npm cache ls && npm install";
         Docker.copied "." "/app" ];
     Docker.command := Some "node index.js" |}.
Proof. reflexivity. Qed.

(** * Further properties *)

(** ** The server, request by request *)

Section Answers.

Context `{Packages}.
Variable sys : Z -> option string.
Variable e : list (string * string).
Variable a : list string.

(** X1.  The route is for GET (and HEAD) only: a request to [/] with
    another method, OPTIONS apart, that node hands to the application
    does not reach the callback and gets the framework's 404. *)
Theorem root_other_method_not_found (req : IncomingMessage) (p : Process) :
  parserOnIncoming req = Request ->
  pathname req = "/" ->
  Str.toLowerCase (method req) <> "get" ->
  Str.toLowerCase (method req) <> "head" ->
  method req <> "OPTIONS" ->
  respond (fst (node sys e a)) req p =
  (Some {| status := 404;
           fields := [("X-Powered-By", "Express");
                      ("Content-Security-Policy", "default-src 'none'");
                      ("X-Content-Type-Options", "nosniff");
                      ("Content-Type", "text/html; charset=utf-8");
                      ("Content-Length",
                       Str.decimal (String.length
                         (createHtmlDocument ("Cannot " ++ method req ++ " " ++ encodeUrl "/"))))];
           content := createHtmlDocument ("Cannot " ++ method req ++ " " ++ encodeUrl "/") |}, p).
Proof.
  intros Hi Hp Hg Hh Ho. rewrite node_is_stage, respond_cases, finalhandler_first, Hi, Hp.
  cbn [String.eqb Ascii.eqb Bool.eqb].
  destruct (String.eqb_spec (Str.toLowerCase (method req)) "get") as [E | _]; [ now elim Hg | ].
  destruct (String.eqb_spec (Str.toLowerCase (method req)) "head") as [E | _]; [ now elim Hh | ].
  destruct (String.eqb_spec (method req) "OPTIONS") as [E | _]; [ now elim Ho | ].
  destruct (String.eqb_spec (method req) "HEAD") as [E | _]; [ | reflexivity ].
  elim Hh. rewrite E. reflexivity.
Qed.

(** X2.  An OPTIONS request to [/] that node hands to the application
    is answered by the framework itself, 200 with the methods of the
    route in the Allow field and in the body, whatever its other
    headers: such a request is never answered 304. *)
Theorem options_root_allow (req : IncomingMessage) (p : Process) :
  parserOnIncoming req = Request ->
  pathname req = "/" ->
  method req = "OPTIONS" ->
  respond (fst (node sys e a)) req p =
  (Some {| status := 200;
           fields := [("X-Powered-By", "Express");
                      ("Allow", "GET,HEAD");
                      ("Content-Type", "text/html; charset=utf-8");
                      ("Content-Length", "8");
                      ("ETag", etag "GET,HEAD")];
           content := "GET,HEAD" |}, p).
Proof.
  intros Hi Hp Hm. rewrite node_is_stage, respond_cases, (options_first req Hm), Hi, Hp, Hm.
  reflexivity.
Qed.

(** X3.  The reply is decided by the version, the method, the path and
    the headers of the request: its query string and its body are never
    read. *)
Theorem respond_ignores_query_and_body (req1 req2 : IncomingMessage) (p : Process) :
  httpVersion req1 = httpVersion req2 ->
  method req1 = method req2 ->
  pathname req1 = pathname req2 ->
  headers req1 = headers req2 ->
  fst (respond (fst (node sys e a)) req1 p) = fst (respond (fst (node sys e a)) req2 p).
Proof.
  intros Hv Hm Hp Hh. rewrite node_is_stage, !respond_cases. cbn [fst].
  assert (Hi : parserOnIncoming req1 = parserOnIncoming req2).
  { unfold parserOnIncoming. rewrite Hv, Hm, Hh. reflexivity. }
  rewrite Hi. destruct (parserOnIncoming req2); [ | reflexivity | reflexivity ].
  rewrite !send_first, !finalhandler_first, Hm, Hp, Hh.
  destruct (String.eqb (pathname req2) "/"); [ | reflexivity ].
  destruct (String.eqb (Str.toLowerCase (method req2)) "get"
            || String.eqb (Str.toLowerCase (method req2)) "head"); [ reflexivity | ].
  destruct (String.eqb_spec (method req2) "OPTIONS") as [E | _]; [ | reflexivity ].
  rewrite (options_first req1), (options_first req2) by congruence. reflexivity.
Qed.

(** X4.  A GET request to [/] that node hands to the application and
    that carries no If-None-Match field (or an empty one) always gets
    the full reply: 200 and 'Good Afternoon!'. *)
Theorem get_root_unconditional (req : IncomingMessage) (p : Process) :
  parserOnIncoming req = Request ->
  method req = "GET" ->
  pathname req = "/" ->
  Str.truthy (getHeader "if-none-match" (headers req)) = false ->
  respond (fst (node sys e a)) req p =
  (Some {| status := 200;
           fields := [("X-Powered-By", "Express");
                      ("Content-Type", "text/html; charset=utf-8");
                      ("Content-Length", "15");
                      ("ETag", etag "Good Afternoon!")];
           content := "Good Afternoon!" |}, p).
Proof.
  intros Hi Hm Hp Hn. rewrite node_is_stage, respond_cases, send_first, Hi, Hp, Hm.
  destruct (fresh (headers req) (Some (etag "Good Afternoon!")) None) eqn:F; [ | reflexivity ].
  apply fresh_needs_none_match in F. destruct F as [F _]. congruence.
Qed.

(** X5.  A reload (Cache-Control no-cache) of [/] that node hands to the
    application always gets the full reply, also when the request
    carries a validator that matches. *)
Theorem get_root_no_cache (req : IncomingMessage) (p : Process) (cc : string) :
  parserOnIncoming req = Request ->
  method req = "GET" ->
  pathname req = "/" ->
  getHeader "cache-control" (headers req) = Some cc ->
  cc <> "" ->
  no_cache cc = true ->
  respond (fst (node sys e a)) req p =
  (Some {| status := 200;
           fields := [("X-Powered-By", "Express");
                      ("Content-Type", "text/html; charset=utf-8");
                      ("Content-Length", "15");
                      ("ETag", etag "Good Afternoon!")];
           content := "Good Afternoon!" |}, p).
Proof.
  intros Hi Hm Hp Hc Hne Hnc. rewrite node_is_stage, respond_cases, send_first, Hi, Hp, Hm.
  rewrite (fresh_no_cache _ _ _ cc Hc Hne Hnc). reflexivity.
Qed.

(** X6.  Every request but CONNECT is answered.  The application
    answers the requests node hands to it with 200, 304 or 404, and
    names the framework in the X-Powered-By field of every reply; node
    answers the HTTP/1.1 requests it refuses with 400 or 417, without
    that field and without a body.  A CONNECT request gets no reply. *)
Theorem every_request_answered (req : IncomingMessage) (p : Process) :
  match fst (respond (fst (node sys e a)) req p) with
  | Some r =>
      method req <> "CONNECT" /\
      ((parserOnIncoming req = Request /\
        (status r = 200 \/ status r = 304 \/ status r = 404) /\
        getHeader "X-Powered-By" (fields r) = Some "Express") \/
       (httpVersion req = "1.1" /\
        (status r = 400 \/ status r = 417) /\
        fields r = [] /\ content r = ""))
  | None => method req = "CONNECT"
  end.
Proof.
  rewrite node_is_stage, respond_cases, send_first, finalhandler_first. cbn [fst].
  destruct (parserOnIncoming req) as [ | code | ] eqn:G.
  - assert (Hc : method req <> "CONNECT").
    { intro E. apply incoming_destroyed in E. congruence. }
    destruct (String.eqb (pathname req) "/").
    + destruct (String.eqb (Str.toLowerCase (method req)) "get"
                || String.eqb (Str.toLowerCase (method req)) "head").
      * destruct ((String.eqb (method req) "GET" || String.eqb (method req) "HEAD")
                  && fresh (headers req) (Some (etag "Good Afternoon!")) None);
          (split; [ exact Hc | left; split; [ reflexivity | split; auto ] ]).
      * destruct (String.eqb_spec (method req) "OPTIONS") as [E | _].
        -- rewrite (options_first req E).
           split; [ exact Hc | left; split; [ reflexivity | split; auto ] ].
        -- split; [ exact Hc | left; split; [ reflexivity | split; auto ] ].
    + split; [ exact Hc | left; split; [ reflexivity | split; auto ] ].
  - assert (Hc : method req <> "CONNECT").
    { intro E. apply incoming_destroyed in E. congruence. }
    apply incoming_refused in G. destruct G as [V [[C _] | [C _]]];
      (split; [ exact Hc | right; split; [ exact V | split; [ | split; reflexivity ] ] ]);
      cbn [status]; auto.
  - apply incoming_destroyed. exact G.
Qed.

(** X7.  A HEAD request never gets a body, on [/] or anywhere else. *)
Theorem head_never_has_body (req : IncomingMessage) (p : Process) :
  method req = "HEAD" ->
  exists r,
    fst (respond (fst (node sys e a)) req p) = Some r /\ content r = "".
Proof.
  intro Hm. rewrite node_is_stage, respond_cases, send_first, finalhandler_first, Hm. cbn [fst].
  destruct (parserOnIncoming req) as [ | code | ] eqn:G.
  - change (String.eqb (Str.toLowerCase "HEAD") "get"
            || String.eqb (Str.toLowerCase "HEAD") "head") with true.
    change (String.eqb "HEAD" "GET" || String.eqb "HEAD" "HEAD") with true.
    change (String.eqb "HEAD" "HEAD") with true.
    destruct (String.eqb (pathname req) "/").
    + destruct (true && fresh (headers req) (Some (etag "Good Afternoon!")) None);
        eexists; split; reflexivity.
    + eexists; split; reflexivity.
  - eexists; split; reflexivity.
  - apply incoming_destroyed in G. rewrite Hm in G. discriminate G.
Qed.

(** X8.  304 is only ever the answer to a GET or HEAD request to [/]
    that carries a non-empty If-None-Match field and no If-Modified-Since
    field other than an empty one; such a reply has no body and no
    Content-Type. *)
Theorem not_modified_only_on_validator (req : IncomingMessage) (p : Process) (r : Reply) :
  fst (respond (fst (node sys e a)) req p) = Some r ->
  status r = 304 ->
  pathname req = "/" /\
  (method req = "GET" \/ method req = "HEAD") /\
  Str.truthy (getHeader "if-none-match" (headers req)) = true /\
  Str.truthy (getHeader "if-modified-since" (headers req)) = false /\
  content r = "" /\
  getHeader "Content-Type" (fields r) = None.
Proof.
  rewrite node_is_stage, respond_cases, send_first, finalhandler_first. cbn [fst].
  destruct (parserOnIncoming req) as [ | code | ] eqn:G.
  - destruct (String.eqb_spec (pathname req) "/") as [Hp | _].
    + destruct (String.eqb (Str.toLowerCase (method req)) "get"
                || String.eqb (Str.toLowerCase (method req)) "head").
      * destruct (String.eqb_spec (method req) "GET") as [Eg | _];
          destruct (String.eqb_spec (method req) "HEAD") as [Eh | _];
          cbn [orb andb];
          try (intros Hr Hs; injection Hr as <-; discriminate Hs);
          (destruct (fresh (headers req) (Some (etag "Good Afternoon!")) None) eqn:F;
           intros Hr Hs; injection Hr as <-; [ | discriminate Hs ];
           apply fresh_needs_none_match in F; destruct F as [F1 F2];
           repeat split; auto).
      * destruct (String.eqb_spec (method req) "OPTIONS") as [E | _].
        -- rewrite (options_first req E). intros Hr Hs. injection Hr as <-. discriminate Hs.
        -- intros Hr Hs. injection Hr as <-. discriminate Hs.
    + intros Hr Hs. injection Hr as <-. discriminate Hs.
  - intros Hr Hs. injection Hr as <-. cbn [status] in Hs. subst code.
    apply incoming_refused in G. destruct G as [_ [[C _] | [C _]]]; discriminate C.
  - discriminate.
Qed.

End Answers.

(** ** Startup and the stages *)

Section StartupMore.

Context `{Packages}.

(** X9.  Of the machine the program consults port 3000 only: two
    machines that answer alike for port 3000 give the same run. *)
Theorem startup_reads_port_3000_only
        (sys sys' : Z -> option string) (e : list (string * string)) (a : list string) :
  sys 3000 = sys' 3000 ->
  trace (snd (node sys e a)) = trace (snd (node sys' e a)) /\
  sockets (snd (node sys e a)) = sockets (snd (node sys' e a)) /\
  exitCode (snd (node sys e a)) = exitCode (snd (node sys' e a)).
Proof.
  intro Hs. rewrite !node_is_stage, !run_eval. cbn [snd]. rewrite <- Hs.
  destruct (sys 3000); repeat split; reflexivity.
Qed.

(** X10.  The stages of the README differ in the string sent and in
    nothing else: the process starts in the same way, and a GET request
    to [/] without If-None-Match that node hands to the application gets
    that string, its length and its entity tag. *)
Theorem stage_reply (text : string)
        (sys : Z -> option string) (e : list (string * string)) (a : list string)
        (req : IncomingMessage) (p : Process) :
  parserOnIncoming req = Request ->
  method req = "GET" ->
  pathname req = "/" ->
  Str.truthy (getHeader "if-none-match" (headers req)) = false ->
  snd (Stages.run text sys e a) = snd (node sys e a) /\
  respond (fst (Stages.run text sys e a)) req p =
  (Some {| status := 200;
           fields := [("X-Powered-By", "Express");
                      ("Content-Type", "text/html; charset=utf-8");
                      ("Content-Length", Str.decimal (String.length text));
                      ("ETag", etag text)];
           content := text |}, p).
Proof.
  intros Hi Hm Hp Hn. split.
  - rewrite node_is_stage, !run_eval. reflexivity.
  - rewrite respond_cases, send_first, Hi, Hp, Hm.
    destruct (fresh (headers req) (Some (etag text)) None) eqn:F; [ | reflexivity ].
    apply fresh_needs_none_match in F. destruct F as [F _]. congruence.
Qed.

End StartupMore.

(** ** The layer cache *)

Section Layers.

Import Docker Cache.

Lemma hits_same (k : Key) (old new : list Key) :
  hits (k :: old) (k :: new) = true :: hits old new.
Proof. cbn [hits]. destruct (Key_eq_dec k k) as [_ | N]; [ reflexivity | now elim N ]. Qed.

Lemma hits_differ (k k' : Key) (old new : list Key) :
  k <> k' -> hits (k :: old) (k' :: new) = map (fun _ => false) (k' :: new).
Proof. intro N. cbn [hits]. destruct (Key_eq_dec k k') as [E | _]; [ now elim N | reflexivity ]. Qed.

(** The keys of a build of the shipped Dockerfile. *)
Lemma plan_Dockerfile (ctx : Context) :
  plan Dockerfile ctx =
  match sources "package.json" ctx, sources "package-lock.json" ctx with
  | Some m, Some l =>
      Some [ key (FROM "node:21.6-slim") [];
             key (WORKDIR "/app") [];
             key (COPY "package.json" "/app/") m;
             key (COPY "package-lock.json" "/app/") l;
             key (RUN [cache "/root/.npm"] "npm cache ls && npm install") [];
             key (COPY "." "/app") ctx;
             key (CMD "node index.js") [] ]
  | _, _ => None
  end.
Proof.
  unfold Dockerfile. cbn [plan cache_key].
  change (sources "." ctx) with (Some ctx).
  destruct (sources "package.json" ctx), (sources "package-lock.json" ctx); reflexivity.
Qed.

(** The keys of a build of the Dockerfile of stage 2. *)
Lemma plan_stage2 (ctx : Context) :
  plan Stages.Dockerfile_stage2 ctx =
  Some [ key (FROM "node:21.6-slim") [];
         key (WORKDIR "/app") [];
         key (COPY "." "/app") ctx;
         key (RUN [] "npm install") [];
         key (CMD "node index.js") [] ].
Proof. reflexivity. Qed.

(** X11.  With the shipped Dockerfile, a second build after a change
    that leaves [package.json] and [package-lock.json] as they were takes
    every step up to and including the install from the cache; the copy
    of the source is taken from the cache only if nothing changed. *)
Theorem source_edit_keeps_install_cached (before after : Context) (m l : list File) :
  sources "package.json" before = Some m ->
  sources "package.json" after = Some m ->
  sources "package-lock.json" before = Some l ->
  sources "package-lock.json" after = Some l ->
  exists b,
    rebuild Dockerfile before after = Some [true; true; true; true; true; b; b] /\
    (b = true <-> before = after).
Proof.
  intros Hm Hm' Hl Hl'. unfold rebuild. rewrite !plan_Dockerfile, Hm, Hm', Hl, Hl'.
  rewrite !hits_same.
  destruct (list_eq_dec File_eq_dec before after) as [E | N].
  - exists true. subst after. rewrite !hits_same. split; [ reflexivity | tauto ].
  - exists false. rewrite hits_differ by congruence.
    split; [ reflexivity | ]. split; [ discriminate | intro E; now elim N ].
Qed.

(** X12.  With the shipped Dockerfile, a change in [package.json] or in
    [package-lock.json] makes the second build run the install again,
    and every step after it. *)
Theorem manifest_change_reruns_install (before after : Context) (m m' l l' : list File) :
  sources "package.json" before = Some m ->
  sources "package.json" after = Some m' ->
  sources "package-lock.json" before = Some l ->
  sources "package-lock.json" after = Some l' ->
  m <> m' \/ l <> l' ->
  exists c,
    rebuild Dockerfile before after = Some [true; true; c; false; false; false; false] /\
    (c = true <-> m = m').
Proof.
  intros Hm Hm' Hl Hl' Hd. unfold rebuild. rewrite !plan_Dockerfile, Hm, Hm', Hl, Hl'.
  rewrite !hits_same.
  destruct (list_eq_dec File_eq_dec m m') as [E | N].
  - exists true. subst m'. rewrite hits_same.
    destruct Hd as [Hd | Hd]; [ now elim Hd | ].
    rewrite hits_differ by congruence. split; [ reflexivity | tauto ].
  - exists false. rewrite hits_differ by congruence.
    split; [ reflexivity | ]. split; [ discriminate | intro E; now elim N ].
Qed.

(** X13.  With the Dockerfile of stage 2, which copies everything before
    the install, any change in the context makes the second build run
    the install again. *)
Theorem stage2_change_reruns_install (before after : Context) :
  before <> after ->
  rebuild Stages.Dockerfile_stage2 before after = Some [true; true; false; false; false].
Proof.
  intro N. unfold rebuild. rewrite !plan_stage2, !hits_same.
  rewrite hits_differ by congruence. reflexivity.
Qed.

End Layers.

(** ** The properties on the sample inputs *)

#[local] Existing Instance Sample.packages.

(** C1, as first stated, fails: a GET request to [/] that carries
    [If-None-Match: *] is answered 304 with an empty body, not 200 with
    the string, so two GET requests to [/] that differ in their headers
    get different replies. *)
Lemma get_root_if_none_match_304 :
  method Sample.get_root_if_none_match = "GET" /\
  pathname Sample.get_root_if_none_match = "/" /\
  fst (respond (fst (node Sample.free [] [])) Sample.get_root_if_none_match
         (boot Sample.free [] []))
  = Some {| status := 304;
            fields := [("X-Powered-By", "Express"); ("ETag", etag "Good Afternoon!")];
            content := "" |} /\
  ~ (forall (P : Packages) sys e a req p,
        method req = "GET" -> pathname req = "/" ->
        exists r, fst (@respond P (fst (@node P sys e a)) req p) = Some r /\
                  status r = 200 /\ content r = "Good Afternoon!").
Proof.
  repeat split.
  intro All.
  destruct (All Sample.packages Sample.free [] [] Sample.get_root_if_none_match
              (boot Sample.free [] []) eq_refl eq_refl) as [r [Hr [Hs _]]].
  vm_compute in Hr. injection Hr as <-. discriminate Hs.
Qed.

(** C10, as first stated, fails in the same way: a HEAD request to [/]
    with [If-None-Match: *] is answered 304. *)
Lemma head_root_if_none_match_304 :
  method Sample.head_root_if_none_match = "HEAD" /\
  pathname Sample.head_root_if_none_match = "/" /\
  option_map status
    (fst (respond (fst (node Sample.free [] [])) Sample.head_root_if_none_match
            (boot Sample.free [] []))) = Some 304 /\
  ~ (forall (P : Packages) sys e a req p,
        method req = "HEAD" -> pathname req = "/" ->
        option_map status (fst (@respond P (fst (@node P sys e a)) req p)) = Some 200).
Proof.
  repeat split.
  intro All.
  specialize (All Sample.packages Sample.free [] [] Sample.head_root_if_none_match
                (boot Sample.free [] []) eq_refl eq_refl).
  vm_compute in All. discriminate All.
Qed.

(** C5, as first stated, fails: the 200 reply to a plain GET [/] is
    labelled [text/html; charset=utf-8], not a plain-text type. *)
Lemma get_root_labelled_html :
  option_map status
    (fst (respond (fst (node Sample.free [] [])) Sample.get_root (boot Sample.free [] [])))
  = Some 200 /\
  option_map (fun r => getHeader "Content-Type" (fields r))
    (fst (respond (fst (node Sample.free [] [])) Sample.get_root (boot Sample.free [] [])))
  = Some (Some "text/html; charset=utf-8") /\
  String.prefix "text/plain" "text/html; charset=utf-8" = false /\
  ~ (forall (P : Packages) sys e a req p r,
        method req = "GET" -> pathname req = "/" ->
        fst (@respond P (fst (@node P sys e a)) req p) = Some r ->
        status r = 200 ->
        exists type, getHeader "Content-Type" (fields r) = Some type /\
                     String.prefix "text/plain" type = true).
Proof.
  repeat split.
  intro All.
  destruct (All Sample.packages Sample.free [] [] Sample.get_root (boot Sample.free [] []) _
              eq_refl eq_refl eq_refl eq_refl) as [type [Ht Hpre]].
  vm_compute in Ht. injection Ht as <-. discriminate Hpre.
Qed.

(** C4, as first stated, fails: with port 3000 taken the startup line is
    written although no listener is ever bound. *)
Lemma startup_line_without_listener :
  trace (snd (node Sample.taken [] [])) =
    [Listen 3000; BindFailed 3000 "EADDRINUSE";
     Stdout "Server is listening on http://localhost:3000";
     Uncaught "EADDRINUSE"; Exit 1] /\
  existsb is_bound (trace (snd (node Sample.taken [] []))) = false /\
  ~ (forall (P : Packages) sys e a pre line post,
        trace (snd (@node P sys e a)) = (pre ++ Stdout line :: post)%list ->
        existsb is_bound pre = true).
Proof.
  repeat split.
  intro All.
  specialize (All Sample.packages Sample.taken [] []
                [Listen 3000; BindFailed 3000 "EADDRINUSE"]
                "Server is listening on http://localhost:3000"
                [Uncaught "EADDRINUSE"; Exit 1] eq_refl).
  discriminate All.
Qed.

(** C2, as first stated, fails: a request for another path that node
    does not hand to the application gets no 404 from the framework.
    With [Expect: foo] node answers 417 itself. *)
Lemma other_path_expect_417 :
  pathname Sample.get_about_expect <> "/" /\
  fst (respond (fst (node Sample.free [] [])) Sample.get_about_expect (boot Sample.free [] []))
  = Some {| status := 417; fields := []; content := "" |} /\
  ~ (forall (P : Packages) sys e a req p,
        pathname req <> "/" ->
        exists r, fst (@respond P (fst (@node P sys e a)) req p) = Some r /\ status r = 404).
Proof.
  split; [ discriminate | split; [ reflexivity | ] ].
  intro All.
  assert (Hp : pathname Sample.get_about_expect <> "/") by discriminate.
  destruct (All Sample.packages Sample.free [] [] Sample.get_about_expect
              (boot Sample.free [] []) Hp) as [r [Hr Hs]].
  vm_compute in Hr. injection Hr as <-. discriminate Hs.
Qed.

(** C3, as first stated, fails: with port 3000 taken the process binds
    no socket at all. *)
Lemma no_socket_when_port_taken :
  sockets (snd (node Sample.taken [] [])) = [] /\
  filter is_bound (trace (snd (node Sample.taken [] []))) = [] /\
  ~ (forall (P : Packages) sys e a,
        length (filter is_bound (trace (snd (@node P sys e a)))) = 1%nat).
Proof.
  split; [ reflexivity | split; [ reflexivity | ] ].
  intro All. specialize (All Sample.packages Sample.taken [] []). discriminate All.
Qed.

(** The version of the request matters beside its method, path and
    headers: node checks the Expect field of an HTTP/1.1 request only. *)
Lemma expect_checked_in_http11_only :
  method Sample.get_root_expect = method Sample.get_root_expect_http10 /\
  pathname Sample.get_root_expect = pathname Sample.get_root_expect_http10 /\
  headers Sample.get_root_expect = headers Sample.get_root_expect_http10 /\
  option_map status
    (fst (respond (fst (node Sample.free [] [])) Sample.get_root_expect
            (boot Sample.free [] []))) = Some 417 /\
  option_map status
    (fst (respond (fst (node Sample.free [] [])) Sample.get_root_expect_http10
            (boot Sample.free [] []))) = Some 200.
Proof. repeat split. Qed.

(** [get_root_reply] on [curl http://localhost:3000]. *)
Lemma get_root_reply_witness :
  method Sample.get_root = "GET" /\
  pathname Sample.get_root = "/" /\
  respond (fst (node Sample.free [] [])) Sample.get_root (boot Sample.free [] []) =
  (Some {| status := 200;
           fields := [("X-Powered-By", "Express");
                      ("Content-Type", "text/html; charset=utf-8");
                      ("Content-Length", "15");
                      ("ETag", etag "Good Afternoon!")];
           content := "Good Afternoon!" |}, boot Sample.free [] []).
Proof.
  split; [ reflexivity | split; [ reflexivity | ] ].
  exact (get_root_reply Sample.free [] [] Sample.get_root (boot Sample.free [] [])
           eq_refl eq_refl).
Defined.

(** [head_root_reply] on [curl -I http://localhost:3000]. *)
Lemma head_root_reply_witness :
  method Sample.head_root = "HEAD" /\
  pathname Sample.head_root = "/" /\
  respond (fst (node Sample.free [] [])) Sample.head_root (boot Sample.free [] []) =
  (Some {| status := 200;
           fields := [("X-Powered-By", "Express");
                      ("Content-Type", "text/html; charset=utf-8");
                      ("Content-Length", "15");
                      ("ETag", etag "Good Afternoon!")];
           content := "" |}, boot Sample.free [] []).
Proof.
  split; [ reflexivity | split; [ reflexivity | ] ].
  exact (head_root_reply Sample.free [] [] Sample.head_root (boot Sample.free [] [])
           eq_refl eq_refl).
Defined.

(** [get_root_content_type] on [curl http://localhost:3000]. *)
Lemma get_root_content_type_witness :
  let r := {| status := 200;
              fields := [("X-Powered-By", "Express");
                         ("Content-Type", "text/html; charset=utf-8");
                         ("Content-Length", "15");
                         ("ETag", etag "Good Afternoon!")];
              content := "Good Afternoon!" |} in
  method Sample.get_root = "GET" /\
  pathname Sample.get_root = "/" /\
  fst (respond (fst (node Sample.free [] [])) Sample.get_root (boot Sample.free [] [])) = Some r /\
  status r = 200 /\
  getHeader "Content-Type" (fields r) = Some "text/html; charset=utf-8" /\
  content r = "Good Afternoon!".
Proof.
  intro r. do 4 (split; [ vm_compute; reflexivity | ]).
  apply (get_root_content_type Sample.free [] [] Sample.get_root (boot Sample.free [] []) r);
    vm_compute; reflexivity.
Defined.

(** [other_path_not_found] on [curl http://localhost:3000/about]. *)
Lemma other_path_not_found_witness :
  pathname Sample.get_about <> "/" /\
  fst (respond (fst (node Sample.free [] [])) Sample.get_about (boot Sample.free [] [])) =
  Some {| status := 404;
          fields := [("X-Powered-By", "Express");
                     ("Content-Security-Policy", "default-src 'none'");
                     ("X-Content-Type-Options", "nosniff");
                     ("Content-Type", "text/html; charset=utf-8");
                     ("Content-Length", "28")];
          content := "<pre>Cannot GET /about</pre>" |}.
Proof.
  assert (Hp : pathname Sample.get_about <> "/") by discriminate.
  split; [ exact Hp | ].
  destruct (other_path_not_found Sample.free [] [] Sample.get_about (boot Sample.free [] []) Hp)
    as [Hr Hf].
  rewrite Hr. exact Hf.
Defined.

(** [startup_line_despite_failure] with port 3000 taken. *)
Lemma startup_line_despite_failure_witness :
  Sample.taken 3000 = Some "EADDRINUSE" /\
  stdout (trace (snd (node Sample.taken [] []))) =
    ["Server is listening on http://localhost:3000"] /\
  exitCode (snd (node Sample.taken [] [])) = Some 1.
Proof.
  split; [ reflexivity | ].
  destruct (startup_line_despite_failure Sample.taken [] [] "EADDRINUSE" eq_refl)
    as [Hout [_ [_ [Hexit _]]]].
  split; [ exact Hout | exact Hexit ].
Defined.

(** ** The further properties on the sample inputs *)

(** [root_other_method_not_found] on [curl -X POST -d hello http://localhost:3000]. *)
Lemma root_other_method_not_found_witness :
  parserOnIncoming Sample.post_root = Request /\
  pathname Sample.post_root = "/" /\
  Str.toLowerCase (method Sample.post_root) <> "get" /\
  Str.toLowerCase (method Sample.post_root) <> "head" /\
  method Sample.post_root <> "OPTIONS" /\
  respond (fst (node Sample.free [] [])) Sample.post_root (boot Sample.free [] []) =
  (Some {| status := 404;
           fields := [("X-Powered-By", "Express");
                      ("Content-Security-Policy", "default-src 'none'");
                      ("X-Content-Type-Options", "nosniff");
                      ("Content-Type", "text/html; charset=utf-8");
                      ("Content-Length", "24")];
           content := "<pre>Cannot POST /</pre>" |}, boot Sample.free [] []).
Proof.
  assert (Hg : Str.toLowerCase (method Sample.post_root) <> "get") by discriminate.
  assert (Hh : Str.toLowerCase (method Sample.post_root) <> "head") by discriminate.
  assert (Ho : method Sample.post_root <> "OPTIONS") by discriminate.
  repeat (split; [ first [ reflexivity | assumption ] | ]).
  exact (root_other_method_not_found Sample.free [] [] Sample.post_root (boot Sample.free [] [])
           eq_refl eq_refl Hg Hh Ho).
Defined.

(** [options_root_allow] on [curl -X OPTIONS http://localhost:3000]. *)
Lemma options_root_allow_witness :
  parserOnIncoming Sample.options_root = Request /\
  pathname Sample.options_root = "/" /\
  method Sample.options_root = "OPTIONS" /\
  respond (fst (node Sample.free [] [])) Sample.options_root (boot Sample.free [] []) =
  (Some {| status := 200;
           fields := [("X-Powered-By", "Express");
                      ("Allow", "GET,HEAD");
                      ("Content-Type", "text/html; charset=utf-8");
                      ("Content-Length", "8");
                      ("ETag", etag "GET,HEAD")];
           content := "GET,HEAD" |}, boot Sample.free [] []).
Proof.
  do 3 (split; [ reflexivity | ]).
  exact (options_root_allow Sample.free [] [] Sample.options_root (boot Sample.free [] [])
           eq_refl eq_refl eq_refl).
Defined.

(** [respond_ignores_query_and_body] on [/] and [/?name=x]. *)
Lemma respond_ignores_query_and_body_witness :
  httpVersion Sample.get_root = httpVersion Sample.get_root_query /\
  method Sample.get_root = method Sample.get_root_query /\
  pathname Sample.get_root = pathname Sample.get_root_query /\
  headers Sample.get_root = headers Sample.get_root_query /\
  query Sample.get_root <> query Sample.get_root_query /\
  fst (respond (fst (node Sample.free [] [])) Sample.get_root (boot Sample.free [] [])) =
  fst (respond (fst (node Sample.free [] [])) Sample.get_root_query (boot Sample.free [] [])).
Proof.
  assert (Hq : query Sample.get_root <> query Sample.get_root_query) by discriminate.
  repeat (split; [ first [ reflexivity | assumption ] | ]).
  exact (respond_ignores_query_and_body Sample.free [] [] Sample.get_root Sample.get_root_query
           (boot Sample.free [] []) eq_refl eq_refl eq_refl eq_refl).
Defined.

(** [get_root_unconditional] on [curl http://localhost:3000]. *)
Lemma get_root_unconditional_witness :
  parserOnIncoming Sample.get_root = Request /\
  method Sample.get_root = "GET" /\
  pathname Sample.get_root = "/" /\
  Str.truthy (getHeader "if-none-match" (headers Sample.get_root)) = false /\
  fst (respond (fst (node Sample.free [] [])) Sample.get_root (boot Sample.free [] [])) =
  Some {| status := 200;
          fields := [("X-Powered-By", "Express");
                     ("Content-Type", "text/html; charset=utf-8");
                     ("Content-Length", "15");
                     ("ETag", etag "Good Afternoon!")];
          content := "Good Afternoon!" |}.
Proof.
  do 4 (split; [ reflexivity | ]).
  rewrite (get_root_unconditional Sample.free [] [] Sample.get_root (boot Sample.free [] [])
             eq_refl eq_refl eq_refl eq_refl).
  reflexivity.
Defined.

(** [get_root_no_cache] on a reload that carries [If-None-Match: *]. *)
Lemma get_root_no_cache_witness :
  parserOnIncoming Sample.get_root_reload = Request /\
  method Sample.get_root_reload = "GET" /\
  pathname Sample.get_root_reload = "/" /\
  getHeader "if-none-match" (headers Sample.get_root_reload) = Some "*" /\
  getHeader "cache-control" (headers Sample.get_root_reload) = Some "no-cache" /\
  no_cache "no-cache" = true /\
  option_map status
    (fst (respond (fst (node Sample.free [] [])) Sample.get_root_reload (boot Sample.free [] [])))
  = Some 200.
Proof.
  assert (Hne : "no-cache" <> "") by discriminate.
  assert (Hnc : no_cache "no-cache" = true) by reflexivity.
  do 6 (split; [ reflexivity | ]).
  rewrite (get_root_no_cache Sample.free [] [] Sample.get_root_reload (boot Sample.free [] [])
             "no-cache" eq_refl eq_refl eq_refl eq_refl Hne Hnc).
  reflexivity.
Defined.

(** [head_never_has_body] on [curl -I http://localhost:3000/about]. *)
Lemma head_never_has_body_witness :
  method Sample.head_about = "HEAD" /\
  exists r,
    fst (respond (fst (node Sample.free [] [])) Sample.head_about (boot Sample.free [] [])) = Some r /\
    content r = "".
Proof.
  split; [ reflexivity | ].
  exact (head_never_has_body Sample.free [] [] Sample.head_about (boot Sample.free [] []) eq_refl).
Defined.

(** [not_modified_only_on_validator] on [curl -H 'If-None-Match: *' http://localhost:3000]. *)
Lemma not_modified_only_on_validator_witness :
  let r := {| status := 304;
              fields := [("X-Powered-By", "Express"); ("ETag", etag "Good Afternoon!")];
              content := "" |} in
  fst (respond (fst (node Sample.free [] [])) Sample.get_root_if_none_match
         (boot Sample.free [] [])) = Some r /\
  status r = 304 /\
  pathname Sample.get_root_if_none_match = "/" /\
  (method Sample.get_root_if_none_match = "GET" \/ method Sample.get_root_if_none_match = "HEAD") /\
  Str.truthy (getHeader "if-none-match" (headers Sample.get_root_if_none_match)) = true /\
  Str.truthy (getHeader "if-modified-since" (headers Sample.get_root_if_none_match)) = false /\
  content r = "" /\
  getHeader "Content-Type" (fields r) = None.
Proof.
  intro r. do 2 (split; [ vm_compute; reflexivity | ]).
  apply (not_modified_only_on_validator Sample.free [] [] Sample.get_root_if_none_match
           (boot Sample.free [] []) r); vm_compute; reflexivity.
Defined.

(** [startup_reads_port_3000_only] on two machines that differ on port 8080. *)
Lemma startup_reads_port_3000_only_witness :
  Sample.free 3000 = Sample.other_taken 3000 /\
  Sample.free 8080 <> Sample.other_taken 8080 /\
  trace (snd (node Sample.free [] [])) = trace (snd (node Sample.other_taken [] [])).
Proof.
  assert (Hd : Sample.free 8080 <> Sample.other_taken 8080) by discriminate.
  split; [ reflexivity | split; [ exact Hd | ] ].
  exact (proj1 (startup_reads_port_3000_only Sample.free Sample.other_taken [] [] eq_refl)).
Defined.

(** [stage_reply] on the first stage, 'Hello World!'. *)
Lemma stage_reply_witness :
  parserOnIncoming Sample.get_root = Request /\
  method Sample.get_root = "GET" /\
  pathname Sample.get_root = "/" /\
  Str.truthy (getHeader "if-none-match" (headers Sample.get_root)) = false /\
  respond (fst (Stages.run "Hello World!" Sample.free [] [])) Sample.get_root
    (boot Sample.free [] []) =
  (Some {| status := 200;
           fields := [("X-Powered-By", "Express");
                      ("Content-Type", "text/html; charset=utf-8");
                      ("Content-Length", "12");
                      ("ETag", etag "Hello World!")];
           content := "Hello World!" |}, boot Sample.free [] []).
Proof.
  do 4 (split; [ reflexivity | ]).
  exact (proj2 (stage_reply "Hello World!" Sample.free [] [] Sample.get_root
                  (boot Sample.free [] []) eq_refl eq_refl eq_refl eq_refl)).
Defined.

(** [source_edit_keeps_install_cached] on an edit of [index.js]. *)
Lemma source_edit_keeps_install_cached_witness :
  Cache.sources "package.json" Sample.context = Cache.sources "package.json" Sample.context_edited /\
  Cache.sources "package-lock.json" Sample.context =
    Cache.sources "package-lock.json" Sample.context_edited /\
  Sample.context <> Sample.context_edited /\
  exists b,
    Cache.rebuild Docker.Dockerfile Sample.context Sample.context_edited =
      Some [true; true; true; true; true; b; b] /\
    (b = true <-> Sample.context = Sample.context_edited).
Proof.
  assert (Hd : Sample.context <> Sample.context_edited) by discriminate.
  split; [ reflexivity | split; [ reflexivity | split; [ exact Hd | ] ] ].
  exact (source_edit_keeps_install_cached Sample.context Sample.context_edited
           [("package.json", "{ version: 1.1.0 }")]
           [("package-lock.json", "{ lockfileVersion: 3 }")]
           eq_refl eq_refl eq_refl eq_refl).
Defined.

(** [manifest_change_reruns_install] on a version bump in [package.json]. *)
Lemma manifest_change_reruns_install_witness :
  Cache.sources "package.json" Sample.context <>
    Cache.sources "package.json" Sample.context_bumped /\
  exists c,
    Cache.rebuild Docker.Dockerfile Sample.context Sample.context_bumped =
      Some [true; true; c; false; false; false; false] /\
    (c = true <->
     [("package.json", "{ version: 1.1.0 }")] = [("package.json", "{ version: 1.2.0 }")]).
Proof.
  assert (Hd : [("package.json", "{ version: 1.1.0 }")] <> [("package.json", "{ version: 1.2.0 }")])
    by discriminate.
  split; [ discriminate | ].
  exact (manifest_change_reruns_install Sample.context Sample.context_bumped
           [("package.json", "{ version: 1.1.0 }")]
           [("package.json", "{ version: 1.2.0 }")]
           [("package-lock.json", "{ lockfileVersion: 3 }")]
           [("package-lock.json", "{ lockfileVersion: 3 }")]
           eq_refl eq_refl eq_refl eq_refl (or_introl Hd)).
Defined.

(** [stage2_change_reruns_install] on an edit of [index.js]. *)
Lemma stage2_change_reruns_install_witness :
  Sample.context <> Sample.context_edited /\
  Cache.rebuild Stages.Dockerfile_stage2 Sample.context Sample.context_edited =
    Some [true; true; false; false; false].
Proof.
  assert (Hd : Sample.context <> Sample.context_edited) by discriminate.
  split; [ exact Hd | ].
  exact (stage2_change_reruns_install Sample.context Sample.context_edited Hd).
Defined.

(** node's own answers on the sample requests: an Expect field that asks
    for something else than 100-continue is refused for any method, one
    that asks for 100-continue lets the request through to the
    application, and the expression is matched whatever the case and
    only between characters that are not word characters. *)
Lemma node_answers_on_samples :
  parserOnIncoming Sample.head_root_expect = Refused 417 /\
  parserOnIncoming Sample.get_root_expect_http10 = Request /\
  parserOnIncoming Sample.post_about_continue = Request /\
  option_map status
    (fst (respond (fst (node Sample.free [] [])) Sample.post_about_continue
            (boot Sample.free [] []))) = Some 404 /\
  continueExpression "100-Continue" = true /\
  continueExpression "foo, 100-continue" = true /\
  continueExpression "x100-continue" = false /\
  continueExpression "100-continued" = false.
Proof. repeat split. Qed.
